(** * The environment monitor of the Azure Linux agent

    A shallow embedding of [azurelinuxagent/ga/env.py] (class [EnvHandler])
    and the properties of its four reconcilers: the firewall reset, the
    hostname change detector, the DHCP client restart detector and the
    archive scheduler.

    The handler is a Python object whose methods mutate its fields and call
    collaborators (the OS utility object, the DHCP handler, the archiver,
    the configuration, the protocol accessor, the standard library).  Here
    - the fields are a record, [EnvHandler];
    - the collaborators are interfaces (type classes) over an opaque world
      [W]: a call takes the world, answers with a value or raises, and
      leaves a new world;
    - a method is a computation [M A] over a machine made of the handler,
      the world and the trace of collaborator calls made so far;
    - a Python exception is an outcome [Raise e] that skips the rest of the
      method, except under [try_except]. *)

From Stdlib Require Import ZArith List String Bool Lia Permutation.
Import ListNotations.

Local Open Scope string_scope.
Local Open Scope list_scope.
Local Open Scope Z_scope.

(** ** A fragment of the Python runtime *)

Module Py.

(** An exception object: its class name and its message.  All the
    exceptions of this development are instances of [Exception], which is
    what the [except Exception] clause of the source catches. *)
Record exn : Type := { exc_class : string; exc_msg : string }.

(** [ustr(exception)] *)
Definition ustr (e : exn) : string := exc_msg e.

Definition AttributeError (msg : string) : exn :=
  {| exc_class := "AttributeError"; exc_msg := msg |}.

Definition OverflowError (msg : string) : exn :=
  {| exc_class := "OverflowError"; exc_msg := msg |}.

Inductive outcome (A : Type) : Type :=
| Return (a : A)
| Raise (e : exn).
Arguments Return {A} a.
Arguments Raise {A} e.

(** [sorted(l)] on a list of integers. *)
Fixpoint insert (x : Z) (l : list Z) : list Z :=
  match l with
  | [] => [x]
  | y :: t => if x <=? y then x :: y :: t else y :: insert x t
  end.

Definition sorted (l : list Z) : list Z := fold_right insert [] l.

(** [len(l) == 0] *)
Definition len_is_0 {A : Type} (l : list A) : bool :=
  match l with [] => true | _ :: _ => false end.

(** [a != b] on lists of integers. *)
Fixpoint list_eqb (a b : list Z) : bool :=
  match a, b with
  | [], [] => true
  | x :: a', y :: b' => (x =? y) && list_eqb a' b'
  | _, _ => false
  end.

(** [datetime.datetime]: a naive timestamp, counted in microseconds from
    0001-01-01T00:00:00; the largest one is 9999-12-31T23:59:59.999999,
    day 3652059 of the proleptic calendar. *)
Definition datetime : Type := Z.
Definition timedelta : Type := Z.

Definition microseconds_per_hour : Z := 3600 * 1000000.
Definition timedelta_hours (h : Z) : timedelta := h * microseconds_per_hour.

Definition datetime_max : datetime := 3652059 * 24 * microseconds_per_hour - 1.

(** [d + td]: raises [OverflowError] outside the range of [datetime]. *)
Definition datetime_add (d : datetime) (td : timedelta) : outcome datetime :=
  if (0 <=? d + td) && (d + td <=? datetime_max)
  then Return (d + td)
  else Raise (OverflowError "date value out of range").

End Py.

Import Py.

(** ** Object handles *)

(** The thread, protocol-accessor and protocol objects are opaque to the
    handler: it only stores them and calls their methods. *)
Definition Thread : Type := nat.
Definition ProtocolUtil : Type := nat.
Definition Protocol : Type := nat.

(** ** Module constants *)

Definition MAXIMUM_CACHED_FILES : Z := 50.

Definition ARCHIVE_INTERVAL : timedelta := timedelta_hours 24.

(** ** Trace of collaborator calls *)

(** One event per call the handler makes, recorded when the call is made
    (whether it then returns or raises). *)
Inductive event : Type :=
| LogInfo (msg : string)
| LogWarn (msg : string)
| LogError (msg : string)
| ConfRoutes
| GetHostnameRecord
| GetDhcpPid
| CheckPidAlive (pid : Z)
| RemoveRulesFiles
| RemoveFirewall (dst_ip : string) (uid : Z)
| EnableFirewall (dst_ip : string) (uid : Z)
| SetScsiDisksTimeout (timeout : Z)
| SetHostname (hostname : string)
| PublishHostname (hostname : string)
| ConfEnableFirewall
| ConfGetRootDeviceScsiTimeout
| ConfGetMonitorHostname
| IsMigratingProtocol
| GetProtocolUtil
| GetProtocol (pu : ProtocolUtil)
| GetEndpoint (p : Protocol)
| AddPeriodic (is_success : bool) (log_event : bool)
| Purge
| Archive
| SocketGethostname
| UtcNow
| Sleep (seconds : Z)
| ThreadNew
| ThreadSetDaemon (t : Thread) (daemonic : bool)
| ThreadSetName (t : Thread) (name : string)
| ThreadStart (t : Thread)
| ThreadIsAlive (t : Thread)
| ThreadJoin (t : Thread).

(** ** Collaborator interfaces *)

(** An external call: from a world to an outcome and the world after. *)
Definition ext (W A : Type) : Type := W -> outcome A * W.

(** [self.osutil] *)
Class OSUtil (W : Type) : Type := {
  get_hostname_record : ext W string;
  get_dhcp_pid : ext W (list Z);
  check_pid_alive : Z -> ext W bool;
  remove_rules_files : ext W unit;
  remove_firewall : string -> Z -> ext W unit;
  enable_firewall : string -> Z -> ext W bool;
  set_scsi_disks_timeout : Z -> ext W unit;
  set_hostname : string -> ext W unit;
  publish_hostname : string -> ext W unit
}.

(** [self.dhcp_handler] *)
Class DhcpHandler (W : Type) : Type := {
  conf_routes : ext W unit
}.

(** [self.archiver] *)
Class StateArchiver (W : Type) : Type := {
  purge : ext W unit;
  archive : ext W unit
}.

(** The [conf] module. *)
Class Conf (W : Type) : Type := {
  conf_enable_firewall : ext W bool;
  conf_get_root_device_scsi_timeout : ext W (option Z);
  conf_get_monitor_hostname : ext W bool
}.

(** The protocol modules and the telemetry of [common.event]. *)
Class ProtocolEnv (W : Type) : Type := {
  METADATA_SERVER_ENDPOINT : string;
  is_migrating_protocol : ext W bool;
  get_protocol_util : ext W ProtocolUtil;
  get_protocol : ProtocolUtil -> ext W Protocol;
  get_endpoint : Protocol -> ext W string;
  add_periodic : bool -> bool -> ext W unit
}.

(** The standard library: [os], [socket], [datetime], [threading]. *)
Class StdLib (W : Type) : Type := {
  os_getuid : W -> Z;
  socket_gethostname : ext W string;
  datetime_utcnow : W -> datetime * W;
  Thread_new : ext W Thread;
  Thread_setDaemon : Thread -> bool -> ext W unit;
  Thread_setName : Thread -> string -> ext W unit;
  Thread_start : Thread -> ext W unit;
  Thread_is_alive : Thread -> ext W bool;
  Thread_join : Thread -> ext W unit
}.

(** ** The handler's fields *)

Record EnvHandler : Type := mkEnvHandler {
  protocol_util : option ProtocolUtil;
  stopped : bool;
  hostname : option string;
  dhcp_id_list : list Z;
  server_thread : option Thread;
  dhcp_warning_enabled : bool;
  last_archive : option datetime;
  has_reset_firewall_rules : bool
}.

(** [EnvHandler.__init__]; the three collaborator objects it fetches are the
    interface instances in scope. *)
Definition EnvHandler_init : EnvHandler :=
  {| protocol_util := None;
     stopped := true;
     hostname := None;
     dhcp_id_list := [];
     server_thread := None;
     dhcp_warning_enabled := true;
     last_archive := None;
     has_reset_firewall_rules := false |}.

Definition set_protocol_util (v : option ProtocolUtil) (s : EnvHandler) :=
  mkEnvHandler v (stopped s) (hostname s) (dhcp_id_list s) (server_thread s)
    (dhcp_warning_enabled s) (last_archive s) (has_reset_firewall_rules s).
Definition set_stopped (v : bool) (s : EnvHandler) :=
  mkEnvHandler (protocol_util s) v (hostname s) (dhcp_id_list s) (server_thread s)
    (dhcp_warning_enabled s) (last_archive s) (has_reset_firewall_rules s).
Definition set_hostname_field (v : option string) (s : EnvHandler) :=
  mkEnvHandler (protocol_util s) (stopped s) v (dhcp_id_list s) (server_thread s)
    (dhcp_warning_enabled s) (last_archive s) (has_reset_firewall_rules s).
Definition set_dhcp_id_list (v : list Z) (s : EnvHandler) :=
  mkEnvHandler (protocol_util s) (stopped s) (hostname s) v (server_thread s)
    (dhcp_warning_enabled s) (last_archive s) (has_reset_firewall_rules s).
Definition set_server_thread (v : option Thread) (s : EnvHandler) :=
  mkEnvHandler (protocol_util s) (stopped s) (hostname s) (dhcp_id_list s) v
    (dhcp_warning_enabled s) (last_archive s) (has_reset_firewall_rules s).
Definition set_dhcp_warning_enabled (v : bool) (s : EnvHandler) :=
  mkEnvHandler (protocol_util s) (stopped s) (hostname s) (dhcp_id_list s)
    (server_thread s) v (last_archive s) (has_reset_firewall_rules s).
Definition set_has_reset_firewall_rules (v : bool) (s : EnvHandler) :=
  mkEnvHandler (protocol_util s) (stopped s) (hostname s) (dhcp_id_list s)
    (server_thread s) (dhcp_warning_enabled s) (last_archive s) v.

(** ** Machines and computations *)

Record Machine (W : Type) : Type := mkMachine {
  self : EnvHandler;
  world : W;
  trace : list event
}.
Arguments mkMachine {W} _ _ _.
Arguments self {W} _.
Arguments world {W} _.
Arguments trace {W} _.

Definition M (W A : Type) : Type := Machine W -> outcome A * Machine W.

Section Monad.
Context {W : Type}.

Definition ret {A} (a : A) : M W A := fun m => (Return a, m).

Definition raise {A} (e : exn) : M W A := fun m => (Raise e, m).

Definition bind {A B} (c : M W A) (k : A -> M W B) : M W B :=
  fun m =>
    match c m with
    | (Return a, m') => k a m'
    | (Raise e, m') => (Raise e, m')
    end.

(** [try: c  except Exception as e: h e] *)
Definition try_except {A} (c : M W A) (h : exn -> M W A) : M W A :=
  fun m =>
    match c m with
    | (Return a, m') => (Return a, m')
    | (Raise e, m') => h e m'
    end.

(** Reading and writing [self]. *)
Definition gets {A} (f : EnvHandler -> A) : M W A :=
  fun m => (Return (f (self m)), m).

Definition modify (f : EnvHandler -> EnvHandler) : M W unit :=
  fun m => (Return tt, mkMachine (f (self m)) (world m) (trace m)).

(** A collaborator call: the event is recorded, then the world answers. *)
Definition call {A} (e : event) (f : ext W A) : M W A :=
  fun m =>
    let (r, w') := f (world m) in
    (r, mkMachine (self m) w' (trace m ++ [e])).

(** A collaborator call that cannot raise. *)
Definition ask {A} (e : event) (f : W -> A * W) : M W A :=
  fun m =>
    let (a, w') := f (world m) in
    (Return a, mkMachine (self m) w' (trace m ++ [e])).

(** A read of the world that leaves it as it is. *)
Definition peek {A} (f : W -> A) : M W A :=
  fun m => (Return (f (world m)), m).

(** The logger and [time.sleep] only leave an event. *)
Definition emit (e : event) : M W unit :=
  fun m => (Return tt, mkMachine (self m) (world m) (trace m ++ [e])).

Definition when (b : bool) (c : M W unit) : M W unit :=
  if b then c else ret tt.

End Monad.

Declare Scope py_scope.
Delimit Scope py_scope with py.
Notation "x <- c ;; k" := (bind c (fun x => k))
  (at level 100, c at next level, right associativity) : py_scope.
Notation "c ;; k" := (bind c (fun _ => k))
  (at level 100, right associativity) : py_scope.
Local Open Scope py_scope.

(** ** The methods of [EnvHandler] *)

Section Handler.
Context {W : Type}.
Context {osutil : OSUtil W} {dhcp_handler : DhcpHandler W}
        {archiver : StateArchiver W} {conf : Conf W}
        {protocol_env : ProtocolEnv W} {stdlib : StdLib W}.

(** [self.server_thread.<attr>]: an attribute of [None] does not exist. *)
Definition server_thread_attr (attr : string) : M W Thread :=
  t <- gets server_thread ;;
  match t with
  | Some th => ret th
  | None =>
      raise (AttributeError
               ("'NoneType' object has no attribute '" ++ attr ++ "'"))
  end.

Definition is_alive : M W bool :=
  th <- server_thread_attr "is_alive" ;;
  call (ThreadIsAlive th) (Thread_is_alive th).

(** [start]: the thread object is created and started; what it runs,
    [monitor], is below. *)
Definition start : M W unit :=
  th <- call ThreadNew Thread_new ;;
  modify (set_server_thread (Some th)) ;;
  th1 <- server_thread_attr "setDaemon" ;;
  call (ThreadSetDaemon th1 true) (Thread_setDaemon th1 true) ;;
  th2 <- server_thread_attr "setName" ;;
  call (ThreadSetName th2 "EnvHandler") (Thread_setName th2 "EnvHandler") ;;
  th3 <- server_thread_attr "start" ;;
  call (ThreadStart th3) (Thread_start th3).

Definition stop : M W unit :=
  modify (set_stopped true) ;;
  t <- gets server_thread ;;
  match t with
  | Some th => call (ThreadJoin th) (Thread_join th)
  | None => ret tt
  end.

Definition set_firewall_rules (endpoint : string) : M W unit :=
  call RemoveRulesFiles remove_rules_files ;;
  enabled <- call ConfEnableFirewall conf_enable_firewall ;;
  if enabled then
    has_reset <- gets has_reset_firewall_rules ;;
    (if negb has_reset then
       uid <- peek os_getuid ;;
       call (RemoveFirewall endpoint uid) (remove_firewall endpoint uid) ;;
       modify (set_has_reset_firewall_rules true)
     else ret tt) ;;
    uid <- peek os_getuid ;;
    success <- call (EnableFirewall endpoint uid) (enable_firewall endpoint uid) ;;
    call (AddPeriodic success false) (add_periodic success false)
  else ret tt.

(** [str.format] of a field that may be [None]. *)
Definition format_opt (s : option string) : string :=
  match s with Some x => x | None => "None" end.

(** [curr_hostname != self.hostname] *)
Definition hostname_differs (curr : string) (cached : option string) : bool :=
  match cached with
  | Some h => negb (String.eqb curr h)
  | None => true
  end.

Definition handle_hostname_update : M W unit :=
  curr_hostname <- call SocketGethostname socket_gethostname ;;
  cached <- gets hostname ;;
  if hostname_differs curr_hostname cached then
    emit (LogInfo ("EnvMonitor: Detected hostname change: "
                     ++ format_opt cached ++ " -> " ++ curr_hostname)) ;;
    call (SetHostname curr_hostname) (set_hostname curr_hostname) ;;
    call (PublishHostname curr_hostname) (publish_hostname curr_hostname) ;;
    modify (set_hostname_field (Some curr_hostname))
  else ret tt.

Definition get_dhcp_client_pid : M W (list Z) :=
  pid <- try_except
           (fetched <- call GetDhcpPid get_dhcp_pid ;;
            let pid := sorted fetched in
            enabled <- gets dhcp_warning_enabled ;;
            when (len_is_0 pid && enabled)
                 (emit (LogWarn "Dhcp client is not running.")) ;;
            ret pid)
           (fun exception =>
              enabled <- gets dhcp_warning_enabled ;;
              when enabled
                   (emit (LogError ("Failed to get the PID of the DHCP client: "
                                      ++ ustr exception))) ;;
              ret []) ;;
  modify (set_dhcp_warning_enabled (negb (len_is_0 pid))) ;;
  ret pid.

(** [all(self.osutil.check_pid_alive(pid) for pid in pids)]: the
    generator is consumed up to the first pid reported dead. *)
Fixpoint all_pids_alive (pids : list Z) : M W bool :=
  match pids with
  | [] => ret true
  | pid :: rest =>
      alive <- call (CheckPidAlive pid) (check_pid_alive pid) ;;
      if alive then all_pids_alive rest else ret false
  end.

Definition handle_dhclient_restart : M W unit :=
  ids <- gets dhcp_id_list ;;
  if len_is_0 ids then
    pid <- get_dhcp_client_pid ;;
    modify (set_dhcp_id_list pid)
  else
    ids <- gets dhcp_id_list ;;
    alive <- all_pids_alive ids ;;
    if alive then ret tt
    else
      new_pid <- get_dhcp_client_pid ;;
      ids <- gets dhcp_id_list ;;
      if negb (len_is_0 new_pid) && negb (list_eqb new_pid ids) then
        emit (LogInfo "EnvMonitor: Detected dhcp client restart. Restoring routing table.") ;;
        call ConfRoutes conf_routes ;;
        modify (set_dhcp_id_list new_pid)
      else ret tt.

(** [datetime.datetime.utcnow() < self.last_archive + ARCHIVE_INTERVAL] *)
Definition before_next_archive (last : datetime) : M W bool :=
  now <- ask UtcNow datetime_utcnow ;;
  match datetime_add last ARCHIVE_INTERVAL with
  | Return due => ret (now <? due)
  | Raise e => raise e
  end.

Definition archive_history : M W unit :=
  last <- gets last_archive ;;
  gated <- match last with
           | Some t => before_next_archive t
           | None => ret false
           end ;;
  if gated then ret tt
  else
    call Purge purge ;;
    call Archive archive.

(** The body of the loop of [monitor]. *)
Definition monitor_body (protocol : Protocol) : M W unit :=
  endpoint <- call (GetEndpoint protocol) (get_endpoint protocol) ;;
  set_firewall_rules endpoint ;;
  timeout <- call ConfGetRootDeviceScsiTimeout conf_get_root_device_scsi_timeout ;;
  match timeout with
  | Some t => call (SetScsiDisksTimeout t) (set_scsi_disks_timeout t)
  | None => ret tt
  end ;;
  monitor_hostname <- call ConfGetMonitorHostname conf_get_monitor_hostname ;;
  when monitor_hostname handle_hostname_update ;;
  handle_dhclient_restart ;;
  archive_history ;;
  emit (Sleep 5).

(** The two statements of [monitor] before its loop. *)
Definition monitor_begin : M W Protocol :=
  pu <- call GetProtocolUtil get_protocol_util ;;
  modify (set_protocol_util (Some pu)) ;;
  call (GetProtocol pu) (get_protocol pu).

(** One test of [while not self.stopped] and, when it passes, one run of
    the body; the answer tells whether the loop goes on. *)
Definition monitor_iteration (protocol : Protocol) : M W bool :=
  is_stopped <- gets stopped ;;
  if is_stopped then ret false
  else monitor_body protocol ;; ret true.

(** The loop, up to [fuel] iterations: [Some tt] when it was left because
    [stopped] was set, [None] when the fuel ran out first. *)
Fixpoint monitor_loop (fuel : nat) (protocol : Protocol) : M W (option unit) :=
  match fuel with
  | O => ret None
  | S fuel' =>
      continue <- monitor_iteration protocol ;;
      if continue then monitor_loop fuel' protocol else ret (Some tt)
  end.

Definition monitor (fuel : nat) : M W (option unit) :=
  protocol <- monitor_begin ;;
  monitor_loop fuel protocol.

Definition run : M W unit :=
  is_stopped <- gets stopped ;;
  when (negb is_stopped)
       (emit (LogInfo "Stop existing env monitor service.") ;;
        stop) ;;
  modify (set_stopped false) ;;
  emit (LogInfo "Start env monitor service.") ;;
  call ConfRoutes conf_routes ;;
  name <- call GetHostnameRecord get_hostname_record ;;
  modify (set_hostname_field (Some name)) ;;
  pid <- get_dhcp_client_pid ;;
  modify (set_dhcp_id_list pid) ;;
  enabled <- call ConfEnableFirewall conf_enable_firewall ;;
  migrating <- (if enabled
                then call IsMigratingProtocol is_migrating_protocol
                else ret false) ;;
  when migrating
       (uid <- peek os_getuid ;;
        call (RemoveFirewall METADATA_SERVER_ENDPOINT uid)
             (remove_firewall METADATA_SERVER_ENDPOINT uid)) ;;
  pu <- call GetProtocolUtil get_protocol_util ;;
  protocol <- call (GetProtocol pu) (get_protocol pu) ;;
  endpoint <- call (GetEndpoint protocol) (get_endpoint protocol) ;;
  set_firewall_rules endpoint ;;
  start.

(** *** Operations on one instance

    What the main thread and the background thread do to one handler,
    interleaved at the grain of a method call and of a loop iteration.
    An exception raised by an operation goes to its own caller: the
    operations that follow still find the fields as it left them. *)
Inductive operation : Type :=
| CallRun
| CallStop
| CallIsAlive
| CallStart
| CallSetFirewallRules (endpoint : string)
| CallHandleHostnameUpdate
| CallGetDhcpClientPid
| CallHandleDhclientRestart
| CallArchiveHistory
| CallMonitor (fuel : nat)
| MonitorBegin
| MonitorIteration (protocol : Protocol).

Definition perform (o : operation) : M W unit :=
  match o with
  | CallRun => run
  | CallStop => stop
  | CallIsAlive => is_alive ;; ret tt
  | CallStart => start
  | CallSetFirewallRules endpoint => set_firewall_rules endpoint
  | CallHandleHostnameUpdate => handle_hostname_update
  | CallGetDhcpClientPid => get_dhcp_client_pid ;; ret tt
  | CallHandleDhclientRestart => handle_dhclient_restart
  | CallArchiveHistory => archive_history
  | CallMonitor fuel => monitor fuel ;; ret tt
  | MonitorBegin => monitor_begin ;; ret tt
  | MonitorIteration p => monitor_iteration p ;; ret tt
  end.

(** The operations of one [run()] lifetime: all but a further [run()]. *)
Definition is_call_run (o : operation) : bool :=
  match o with CallRun => true | _ => false end.

Definition within_lifetime (ops : list operation) : bool :=
  forallb (fun o => negb (is_call_run o)) ops.

(** The operations that reach [get_dhcp_client_pid]. *)
Definition queries_dhcp (o : operation) : bool :=
  match o with
  | CallRun | CallGetDhcpClientPid | CallHandleDhclientRestart
  | CallMonitor _ | MonitorIteration _ => true
  | _ => false
  end.

Definition without_query (ops : list operation) : bool :=
  forallb (fun o => negb (queries_dhcp o)) ops.

Fixpoint perform_all (ops : list operation) (m : Machine W) : Machine W :=
  match ops with
  | [] => m
  | o :: rest => perform_all rest (snd (perform o m))
  end.

End Handler.

(** ** Reading traces *)

(** The events a computation added: what [m'] has after the trace of [m]. *)
Definition events_since {W} (m m' : Machine W) : list event :=
  skipn (List.length (trace m)) (trace m').

Definition is_conf_routes (e : event) : bool :=
  match e with ConfRoutes => true | _ => false end.

Definition is_remove_firewall (e : event) : bool :=
  match e with RemoveFirewall _ _ => true | _ => false end.

Definition is_archiver_call (e : event) : bool :=
  match e with Purge | Archive => true | _ => false end.

Definition is_hostname_call (e : event) : bool :=
  match e with SetHostname _ | PublishHostname _ => true | _ => false end.

Definition is_dhcp_warning (e : event) : bool :=
  match e with
  | LogWarn msg => String.eqb msg "Dhcp client is not running."
  | _ => false
  end.

Definition remove_firewall_calls (t : list event) : list event :=
  filter is_remove_firewall t.

Definition conf_routes_calls (t : list event) : list event :=
  filter is_conf_routes t.

Definition archiver_calls (t : list event) : list event :=
  filter is_archiver_call t.

Definition hostname_calls (t : list event) : list event :=
  filter is_hostname_call t.

Definition dhcp_warnings (t : list event) : list event :=
  filter is_dhcp_warning t.

(** The log lines of the methods. *)
Definition dhcp_not_running : event := LogWarn "Dhcp client is not running.".

Definition dhcp_fetch_failed (e : exn) : event :=
  LogError ("Failed to get the PID of the DHCP client: " ++ ustr e).

Definition dhcp_restart_detected : event :=
  LogInfo "EnvMonitor: Detected dhcp client restart. Restoring routing table.".

Definition hostname_change_detected (cached : option string) (curr : string) : event :=
  LogInfo ("EnvMonitor: Detected hostname change: "
             ++ format_opt cached ++ " -> " ++ curr).

(** An ascending list. *)
Fixpoint ascending (l : list Z) : Prop :=
  match l with
  | [] => True
  | x :: t => (forall y, In y t -> x <= y) /\ ascending t
  end.

(** ** Relations kept along a computation

    [stable R c]: whatever the machine, the machine [c] leaves is related
    to it by [R], whether [c] returns or raises. *)
Definition stable {W} (R : Machine W -> Machine W -> Prop) {A} (c : M W A) : Prop :=
  forall m, R m (snd (c m)).

(** With the flag set, an operation keeps it set and adds no call of
    [remove_firewall] to the trace. *)
Definition no_further_reset {W} (m m' : Machine W) : Prop :=
  has_reset_firewall_rules (self m) = true ->
  has_reset_firewall_rules (self m') = true /\
  exists evs, trace m' = trace m ++ evs /\ remove_firewall_calls evs = [].

(** ** Further readings of traces *)

(** A line of the log, as opposed to a call of a collaborator. *)
Definition is_log_line (e : event) : bool :=
  match e with
  | LogInfo _ | LogWarn _ | LogError _ => true
  | _ => false
  end.

Definition is_sleep (e : event) : bool :=
  match e with Sleep _ => true | _ => false end.

(** The calls of the firewall reconciler past the pruning of rule files. *)
Definition is_firewall_call (e : event) : bool :=
  match e with
  | RemoveFirewall _ _ | EnableFirewall _ _ | AddPeriodic _ _ => true
  | _ => false
  end.

Definition firewall_calls (t : list event) : list event :=
  filter is_firewall_call t.

(** ** Weakest preconditions

    [wp c Q m]: run from [m], the computation [c] ends in an outcome and a
    machine that satisfy [Q]. *)
Definition wp {W A} (c : M W A) (Q : outcome A -> Machine W -> Prop)
    (m : Machine W) : Prop :=
  Q (fst (c m)) (snd (c m)).

(** [kept I c]: the computation [c] keeps the property [I] of the machine,
    whether it returns or raises. *)
Definition kept {W} (I : Machine W -> Prop) {A} (c : M W A) : Prop :=
  forall m, I m -> wp c (fun _ m' => I m') m.

(** What [run()] has assigned before it queries the pids. *)
Definition bootstrapped (s : EnvHandler) : Prop :=
  stopped s = false /\ hostname s <> None.

(** Since the trace was [t0] and the reset flag [b0], the flag is as it
    was and no call touched the firewall. *)
Definition firewall_untouched {W} (t0 : list event) (b0 : bool)
    (m : Machine W) : Prop :=
  has_reset_firewall_rules (self m) = b0 /\
  exists evs, trace m = t0 ++ evs /\ firewall_calls evs = [].

(** ** A scripted world

    A concrete world on which the handler can be run: the answers of the
    DHCP pid query are read off a script, one per call; the other
    collaborators answer from fixed data and return normally. *)

Module Scripted.

Record host : Type := mkHost {
  dhcp_pid_answers : list (outcome (list Z));
  dead_pids : list Z;
  kernel_hostname : string;
  clock : datetime;
  firewall_enabled : bool;
  migrating : bool;
  threads : nat
}.

Definition answer {A} (a : A) : ext host A := fun w => (Return a, w).

Definition next_dhcp_pid : ext host (list Z) :=
  fun w =>
    match dhcp_pid_answers w with
    | [] => (Return [], w)
    | a :: rest =>
        (a, mkHost rest (dead_pids w) (kernel_hostname w) (clock w)
              (firewall_enabled w) (migrating w) (threads w))
    end.

Definition pid_alive (pid : Z) : ext host bool :=
  fun w => (Return (negb (existsb (Z.eqb pid) (dead_pids w))), w).

Definition new_thread : ext host Thread :=
  fun w =>
    (Return (threads w),
     mkHost (dhcp_pid_answers w) (dead_pids w) (kernel_hostname w) (clock w)
       (firewall_enabled w) (migrating w) (S (threads w))).

#[export] Instance osutil : OSUtil host := {|
  get_hostname_record := fun w => (Return (kernel_hostname w), w);
  get_dhcp_pid := next_dhcp_pid;
  check_pid_alive := pid_alive;
  remove_rules_files := answer tt;
  remove_firewall := fun _ _ => answer tt;
  enable_firewall := fun _ _ => answer true;
  set_scsi_disks_timeout := fun _ => answer tt;
  set_hostname := fun _ => answer tt;
  publish_hostname := fun _ => answer tt
|}.

#[export] Instance dhcp_handler : DhcpHandler host := {|
  conf_routes := answer tt
|}.

#[export] Instance archiver : StateArchiver host := {|
  purge := answer tt;
  archive := answer tt
|}.

#[export] Instance conf : Conf host := {|
  conf_enable_firewall := fun w => (Return (firewall_enabled w), w);
  conf_get_root_device_scsi_timeout := answer None;
  conf_get_monitor_hostname := answer true
|}.

#[export] Instance protocol_env : ProtocolEnv host := {|
  METADATA_SERVER_ENDPOINT := "169.254.169.254";
  is_migrating_protocol := fun w => (Return (migrating w), w);
  get_protocol_util := answer 0%nat;
  get_protocol := fun _ => answer 0%nat;
  get_endpoint := fun _ => answer "168.63.129.16";
  add_periodic := fun _ _ => answer tt
|}.

#[export] Instance stdlib : StdLib host := {|
  os_getuid := fun _ => 0;
  socket_gethostname := fun w => (Return (kernel_hostname w), w);
  datetime_utcnow := fun w => (clock w, w);
  Thread_new := new_thread;
  Thread_setDaemon := fun _ _ => answer tt;
  Thread_setName := fun _ _ => answer tt;
  Thread_start := fun _ => answer tt;
  Thread_is_alive := fun _ => answer true;
  Thread_join := fun _ => answer tt
|}.

(** A machine on a fresh trace. *)
Definition boot (s : EnvHandler) (w : host) : Machine host :=
  mkMachine s w [].

(** A quiet host: no DHCP client, nothing dead, firewall enabled. *)
Definition quiet : host :=
  mkHost [] [] "host-a" 0 true false 0.

(** A host whose DHCP client, pid 101, has died and is not back. *)
Definition dead_client : Machine host :=
  boot (set_dhcp_id_list [101] EnvHandler_init)
       (mkHost [Return []] [101] "host-a" 0 true false 0).

(** The same host, with a new client, pid 309, already running. *)
Definition restarted_client : Machine host :=
  boot (set_dhcp_id_list [101] EnvHandler_init)
       (mkHost [Return [309]] [101] "host-a" 0 true false 0).

(** Two clients stored, 101 dead, 205 and a new 309 running. *)
Definition one_of_two_restarted : Machine host :=
  boot (set_dhcp_id_list [101; 205] EnvHandler_init)
       (mkHost [Return [309; 205]] [101] "host-a" 0 true false 0).

(** A host on which the pid query fails. *)
Definition pidof_failure : exn :=
  {| exc_class := "OSError"; exc_msg := "pidof: command not found" |}.

Definition failing_query : Machine host :=
  boot EnvHandler_init
       (mkHost [Raise pidof_failure] [] "host-a" 0 true false 0).

(** A handler that caches "host-a", on a host named [name]. *)
Definition named (name : string) : Machine host :=
  boot (set_hostname_field (Some "host-a"%string) EnvHandler_init)
       (mkHost [] [] name 0 true false 0).

(** A handler whose last archive was at [last], on a host whose clock reads
    [now].  No method assigns [last_archive]: the field is set here. *)
Definition archived_at (last : option datetime) (now : datetime) : Machine host :=
  boot (mkEnvHandler None false None [] None true last false)
       (mkHost [] [] "host-a" now true false 0).

(** A client of pid 309 runs when first asked for, none afterwards. *)
Definition client_then_none : Machine host :=
  boot EnvHandler_init
       (mkHost [Return [309]; Return []] [] "host-a" 0 true false 0).

(** A lifetime after the bootstrap call: two loop iterations around a
    direct call of the reconciler and a [stop()]. *)
Definition a_lifetime : list operation :=
  [MonitorIteration 0%nat; CallSetFirewallRules "168.63.129.16";
   MonitorIteration 0%nat; CallStop].

(** One hour, to write clock readings. *)
Definition hour : Z := microseconds_per_hour.

(** Collaborators that fail, for the behaviour under failure. *)
Definition refused : exn :=
  {| exc_class := "OSError"; exc_msg := "Operation not permitted" |}.

Definition refuse {A} : ext host A := fun w => (Raise refused, w).

(** The OS utility of the host, but for its calls that set the hostname,
    publish it and remove a firewall rule. *)
Definition osutil_with
    (set_name publish_name : string -> ext host unit)
    (remove_rule : string -> Z -> ext host unit) : OSUtil host := {|
  get_hostname_record := fun w => (Return (kernel_hostname w), w);
  get_dhcp_pid := next_dhcp_pid;
  check_pid_alive := pid_alive;
  remove_rules_files := answer tt;
  remove_firewall := remove_rule;
  enable_firewall := fun _ _ => answer true;
  set_scsi_disks_timeout := fun _ => answer tt;
  set_hostname := set_name;
  publish_hostname := publish_name
|}.

Definition hostname_not_settable : OSUtil host :=
  osutil_with (fun _ => refuse) (fun _ => answer tt) (fun _ _ => answer tt).

Definition hostname_not_publishable : OSUtil host :=
  osutil_with (fun _ => answer tt) (fun _ => refuse) (fun _ _ => answer tt).

Definition rule_not_removable : OSUtil host :=
  osutil_with (fun _ => answer tt) (fun _ => answer tt) (fun _ _ => refuse).

(** A configuration with the firewall disabled. *)
Definition conf_off : Conf host := {|
  conf_enable_firewall := answer false;
  conf_get_root_device_scsi_timeout := answer None;
  conf_get_monitor_hostname := answer true
|}.

(** Two clients stored, both running. *)
Definition two_clients : Machine host :=
  boot (set_dhcp_id_list [101; 205] EnvHandler_init) quiet.

(** No client stored, two running, listed in descending order. *)
Definition clients_appear : Machine host :=
  boot EnvHandler_init
       (mkHost [Return [309; 205]] [] "host-a" 0 true false 0).

(** Two clients stored, 101 reported dead, and a refetch that lists the
    same two pids the other way round. *)
Definition same_clients_listed : Machine host :=
  boot (set_dhcp_id_list [101; 205] EnvHandler_init)
       (mkHost [Return [205; 101]] [101] "host-a" 0 true false 0).

(** The client has died and the pid query fails. *)
Definition dead_client_failing_query : Machine host :=
  boot (set_dhcp_id_list [101] EnvHandler_init)
       (mkHost [Raise pidof_failure] [101] "host-a" 0 true false 0).

(** The client has died; none is found at first, then one of pid 309. *)
Definition client_back_later : Machine host :=
  boot (set_dhcp_id_list [101] EnvHandler_init)
       (mkHost [Return []; Return [309]] [101] "host-a" 0 true false 0).

(** Three clients stored, the second one dead. *)
Definition second_of_three_dead : Machine host :=
  boot (set_dhcp_id_list [101; 205; 309] EnvHandler_init)
       (mkHost [] [205] "host-a" 0 true false 0).

(** A handler past its one-time firewall reset. *)
Definition reset_done : Machine host :=
  boot (set_has_reset_firewall_rules true EnvHandler_init) quiet.

End Scripted.

(** ** Facts on traces *)

Lemma events_since_app {W} (m m' : Machine W) (evs : list event) :
  trace m' = trace m ++ evs -> events_since m m' = evs.
Proof.
  intros E. unfold events_since. rewrite E.
  rewrite skipn_app, skipn_all, Nat.sub_diag. reflexivity.
Qed.

(** ** Facts on the runtime fragment *)

Lemma insert_not_nil (x : Z) (l : list Z) : insert x l <> [].
Proof. destruct l as [|y t]; simpl; [|destruct (x <=? y)]; discriminate. Qed.

Lemma sorted_nil_iff (l : list Z) : sorted l = [] <-> l = [].
Proof.
  split; intros E; [|now subst].
  destruct l as [|x t]; [reflexivity|].
  simpl in E. now apply insert_not_nil in E.
Qed.

Lemma len_is_0_sorted (l : list Z) : len_is_0 (sorted l) = len_is_0 l.
Proof.
  destruct l as [|x t]; [reflexivity|].
  simpl. destruct (insert x (sorted t)) eqn:E; [|reflexivity].
  now apply insert_not_nil in E.
Qed.

Lemma len_is_0_true {A} (l : list A) : len_is_0 l = true <-> l = [].
Proof. destruct l; simpl; split; congruence. Qed.

Lemma list_eqb_eq (a b : list Z) : list_eqb a b = true <-> a = b.
Proof.
  revert b; induction a as [|x a IH]; intros [|y b]; simpl;
    try (split; congruence).
  rewrite andb_true_iff, Z.eqb_eq, IH. split.
  - intros [-> ->]; reflexivity.
  - intros E; injection E; auto.
Qed.

(** [sorted] gives an ascending list with the same members. *)
Lemma insert_In (x y : Z) (l : list Z) : In y (insert x l) <-> y = x \/ In y l.
Proof.
  induction l as [|z t IH]; simpl.
  - intuition.
  - destruct (x <=? z); simpl; rewrite ?IH; intuition.
Qed.

Lemma sorted_In (y : Z) (l : list Z) : In y (sorted l) <-> In y l.
Proof.
  induction l as [|x t IH]; simpl; [tauto|].
  rewrite insert_In, IH. intuition.
Qed.

Lemma insert_ascending (x : Z) (l : list Z) :
  ascending l -> ascending (insert x l).
Proof.
  induction l as [|z t IH]; simpl; intros H.
  - split; [intros y []|exact I].
  - destruct H as [Hz Ht]. destruct (x <=? z) eqn:E; simpl.
    + apply Z.leb_le in E. repeat split; auto.
      intros y [<-|Hy]; [exact E|]. specialize (Hz y Hy). lia.
    + apply Z.leb_gt in E. split; [|auto].
      intros y Hy. apply insert_In in Hy as [->|Hy]; [lia|auto].
Qed.

Lemma sorted_ascending (l : list Z) : ascending (sorted l).
Proof.
  induction l as [|x t IH]; simpl; [exact I|].
  now apply insert_ascending.
Qed.

(** ** Relations kept along a computation

    [stable R c]: whatever the machine, the machine [c] leaves is related
    to it by [R], whether [c] returns or raises.  For a preorder [R] this
    goes through every combinator, so a method is stable as soon as its
    assignments and calls are. *)

Section Stable.
Context {W : Type}.
Variable R : Machine W -> Machine W -> Prop.
Hypothesis R_refl : forall m, R m m.
Hypothesis R_trans : forall m1 m2 m3, R m1 m2 -> R m2 m3 -> R m1 m3.

Lemma stable_ret {A} (a : A) : stable R (ret a).
Proof. intros m; apply R_refl. Qed.

Lemma stable_raise {A} (e : exn) : stable R (@raise W A e).
Proof. intros m; apply R_refl. Qed.

Lemma stable_gets {A} (f : EnvHandler -> A) : stable R (gets f).
Proof. intros m; apply R_refl. Qed.

Lemma stable_peek {A} (f : W -> A) : stable R (peek f).
Proof. intros m; apply R_refl. Qed.

Lemma stable_bind {A B} (c : M W A) (k : A -> M W B) :
  stable R c -> (forall a, stable R (k a)) -> stable R (bind c k).
Proof.
  intros Hc Hk m. unfold bind. specialize (Hc m).
  destruct (c m) as [[a|e] m']; simpl in *; [|exact Hc].
  eapply R_trans; [exact Hc|apply Hk].
Qed.

Lemma stable_try_except {A} (c : M W A) (h : exn -> M W A) :
  stable R c -> (forall e, stable R (h e)) -> stable R (try_except c h).
Proof.
  intros Hc Hh m. unfold try_except. specialize (Hc m).
  destruct (c m) as [[a|e] m']; simpl in *; [exact Hc|].
  eapply R_trans; [exact Hc|apply Hh].
Qed.

Lemma stable_when (b : bool) (c : M W unit) : stable R c -> stable R (when b c).
Proof. intros Hc; destruct b; simpl; [exact Hc|apply stable_ret]. Qed.

Lemma stable_call {A} (e : event) (f : ext W A) :
  (forall m w', R m (mkMachine (self m) w' (trace m ++ [e]))) ->
  stable R (call e f).
Proof. intros H m. unfold call. destruct (f (world m)); simpl. apply H. Qed.

Lemma stable_ask {A} (e : event) (f : W -> A * W) :
  (forall m w', R m (mkMachine (self m) w' (trace m ++ [e]))) ->
  stable R (ask e f).
Proof. intros H m. unfold ask. destruct (f (world m)); simpl. apply H. Qed.

Lemma stable_emit (e : event) :
  (forall m w', R m (mkMachine (self m) w' (trace m ++ [e]))) ->
  stable R (emit e).
Proof. intros H m. unfold emit; simpl. apply H. Qed.

Lemma stable_modify (f : EnvHandler -> EnvHandler) :
  (forall m, R m (mkMachine (f (self m)) (world m) (trace m))) ->
  stable R (modify f).
Proof. intros H m. unfold modify; simpl. apply H. Qed.

End Stable.

(** The methods keep every preorder that
    - no call other than [remove_firewall] disturbs,
    - no assignment to a field other than [has_reset_firewall_rules] and
      [dhcp_warning_enabled] disturbs (none is made to [last_archive]),
    - [set_firewall_rules], which assigns the former, keeps,
    - [get_dhcp_client_pid], which assigns the latter, keeps. *)

Section Frame.
Context {W : Type}.
Context {osutil : OSUtil W} {dhcp_handler : DhcpHandler W}
        {archiver : StateArchiver W} {conf : Conf W}
        {protocol_env : ProtocolEnv W} {stdlib : StdLib W}.
Variable R : Machine W -> Machine W -> Prop.
Hypothesis R_refl : forall m, R m m.
Hypothesis R_trans : forall m1 m2 m3, R m1 m2 -> R m2 m3 -> R m1 m3.
Hypothesis R_event : forall e m w',
  is_remove_firewall e = false ->
  R m (mkMachine (self m) w' (trace m ++ [e])).
Hypothesis R_field : forall f m,
  (forall s, last_archive (f s) = last_archive s) ->
  (forall s, has_reset_firewall_rules (f s) = has_reset_firewall_rules s) ->
  (forall s, dhcp_warning_enabled (f s) = dhcp_warning_enabled s) ->
  R m (mkMachine (f (self m)) (world m) (trace m)).
Hypothesis R_reconcile : forall endpoint, stable R (set_firewall_rules endpoint).
Hypothesis R_query : stable R get_dhcp_client_pid.
Hypothesis R_migration : forall dst_ip uid m w',
  R m (mkMachine (self m) w' (trace m ++ [RemoveFirewall dst_ip uid])).

Ltac stable_step :=
  lazymatch goal with
  | |- stable _ (bind _ _) => apply (stable_bind R R_trans); [|intros ?]
  | |- stable _ (try_except _ _) =>
      apply (stable_try_except R R_trans); [|intros ?]
  | |- stable _ (ret _) => apply (stable_ret R R_refl)
  | |- stable _ (raise _) => apply (stable_raise R R_refl)
  | |- stable _ (gets _) => apply (stable_gets R R_refl)
  | |- stable _ (peek _) => apply (stable_peek R R_refl)
  | |- stable _ (when _ _) => apply (stable_when R R_refl)
  | |- stable _ (call _ _) =>
      apply stable_call; intros; apply R_event; reflexivity
  | |- stable _ (ask _ _) =>
      apply stable_ask; intros; apply R_event; reflexivity
  | |- stable _ (emit _) =>
      apply stable_emit; intros; apply R_event; reflexivity
  | |- stable _ (modify _) =>
      apply stable_modify; intros; apply R_field; reflexivity
  | |- stable _ (set_firewall_rules _) => apply R_reconcile
  | |- stable _ (if ?b then _ else _) => destruct b
  | |- stable _ (match ?x with _ => _ end) => destruct x
  end.

Lemma stable_server_thread_attr attr : stable R (server_thread_attr attr).
Proof. unfold server_thread_attr. repeat stable_step. Qed.

Lemma stable_is_alive : stable R is_alive.
Proof.
  unfold is_alive. stable_step; [apply stable_server_thread_attr|stable_step].
Qed.

Lemma stable_start : stable R start.
Proof.
  unfold start.
  repeat first [apply stable_server_thread_attr | stable_step].
Qed.

Lemma stable_stop : stable R stop.
Proof. unfold stop. repeat stable_step. Qed.

Lemma stable_handle_hostname_update : stable R handle_hostname_update.
Proof. unfold handle_hostname_update. repeat stable_step. Qed.

Lemma stable_all_pids_alive pids : stable R (all_pids_alive pids).
Proof.
  induction pids as [|pid rest IH]; simpl.
  - stable_step.
  - stable_step; [stable_step|]. destruct a; [exact IH|stable_step].
Qed.

Lemma stable_handle_dhclient_restart : stable R handle_dhclient_restart.
Proof.
  unfold handle_dhclient_restart.
  repeat first [apply R_query
               |apply stable_all_pids_alive
               |stable_step].
Qed.

Lemma stable_archive_history : stable R archive_history.
Proof.
  unfold archive_history, before_next_archive. repeat stable_step.
Qed.

Lemma stable_monitor_body protocol : stable R (monitor_body protocol).
Proof.
  unfold monitor_body.
  repeat first [apply stable_handle_hostname_update
               |apply stable_handle_dhclient_restart
               |apply stable_archive_history
               |stable_step].
Qed.

Lemma stable_monitor_begin : stable R monitor_begin.
Proof. unfold monitor_begin. repeat stable_step. Qed.

Lemma stable_monitor_iteration protocol : stable R (monitor_iteration protocol).
Proof.
  unfold monitor_iteration.
  repeat first [apply stable_monitor_body | stable_step].
Qed.

Lemma stable_monitor_loop fuel protocol : stable R (monitor_loop fuel protocol).
Proof.
  induction fuel as [|fuel IH]; simpl.
  - stable_step.
  - stable_step; [apply stable_monitor_iteration|].
    destruct a; [exact IH|stable_step].
Qed.

Lemma stable_monitor fuel : stable R (monitor fuel).
Proof.
  unfold monitor.
  stable_step; [apply stable_monitor_begin|apply stable_monitor_loop].
Qed.

Lemma stable_perform_without_query o :
  queries_dhcp o = false -> stable R (perform o).
Proof.
  destruct o; simpl; intros E; try discriminate E;
    repeat first [apply stable_stop
                 |apply stable_is_alive
                 |apply stable_start
                 |apply stable_handle_hostname_update
                 |apply stable_archive_history
                 |apply stable_monitor_begin
                 |stable_step].
Qed.

Lemma stable_without_query ops m :
  without_query ops = true -> R m (perform_all ops m).
Proof.
  revert m; induction ops as [|o rest IH]; intros m; simpl.
  - intros _. apply R_refl.
  - intros E. apply andb_true_iff in E as [Eo Erest].
    apply negb_true_iff in Eo.
    eapply R_trans; [apply stable_perform_without_query, Eo|apply IH, Erest].
Qed.

Lemma stable_perform_within o :
  is_call_run o = false -> stable R (perform o).
Proof.
  destruct o; simpl; intros E; try discriminate E;
    repeat first [apply stable_stop
                 |apply stable_is_alive
                 |apply stable_start
                 |apply stable_handle_hostname_update
                 |apply R_query
                 |apply stable_handle_dhclient_restart
                 |apply stable_archive_history
                 |apply stable_monitor
                 |apply stable_monitor_begin
                 |apply stable_monitor_iteration
                 |stable_step].
Qed.

Lemma stable_within_lifetime ops m :
  within_lifetime ops = true -> R m (perform_all ops m).
Proof.
  revert m; induction ops as [|o rest IH]; intros m; simpl.
  - intros _. apply R_refl.
  - intros E. apply andb_true_iff in E as [Eo Erest].
    apply negb_true_iff in Eo.
    eapply R_trans; [apply stable_perform_within, Eo|apply IH, Erest].
Qed.

Lemma stable_run : stable R run.
Proof.
  unfold run.
  repeat first [apply stable_stop
               |apply stable_start
               |apply R_query
               |apply stable_call; intros; apply R_migration
               |stable_step].
Qed.

Lemma stable_perform o : stable R (perform o).
Proof.
  destruct o; simpl;
    repeat first [apply stable_run
                 |apply stable_stop
                 |apply stable_is_alive
                 |apply stable_start
                 |apply stable_handle_hostname_update
                 |apply R_query
                 |apply stable_handle_dhclient_restart
                 |apply stable_archive_history
                 |apply stable_monitor
                 |apply stable_monitor_begin
                 |apply stable_monitor_iteration
                 |stable_step].
Qed.

Lemma stable_perform_all ops m : R m (perform_all ops m).
Proof.
  revert m; induction ops as [|o rest IH]; intros m; simpl.
  - apply R_refl.
  - eapply R_trans; [apply stable_perform|apply IH].
Qed.

End Frame.

(** ** Properties of the handler *)

(** Running a method by hand: the combinators are unfolded, the
    projections of the machines reduced. *)
Ltac unfold_monad :=
  cbv beta delta [bind ret raise gets modify call ask peek emit when try_except].

Ltac simp_machine :=
  cbn beta iota zeta delta [self world trace fst snd negb andb].

(** Case analysis on the outcome of the next collaborator call: the
    innermost scrutinee that is not yet a pair. *)
Ltac next_call :=
  match goal with
  | |- context [let (_, _) := ?x in _] =>
      lazymatch x with
      | context [let (_, _) := _ in _] => fail
      | context [match _ with _ => _ end] => fail
      | _ => destruct x as [[?|?] ?] eqn:?; simp_machine
      end
  end.

Section Properties.
Context {W : Type}.
Context {osutil : OSUtil W} {dhcp_handler : DhcpHandler W}
        {archiver : StateArchiver W} {conf : Conf W}
        {protocol_env : ProtocolEnv W} {stdlib : StdLib W}.

Lemma perform_all_app (ops1 ops2 : list operation) (m : Machine W) :
  perform_all (ops1 ++ ops2) m = perform_all ops2 (perform_all ops1 m).
Proof.
  revert m; induction ops1 as [|o rest IH]; intros m; simpl; [reflexivity|].
  apply IH.
Qed.

(** *** The DHCP pid query *)

(** The query when [get_dhcp_pid] returns. *)
Lemma get_dhcp_client_pid_fetched (m : Machine W) (fetched : list Z) (w' : W) :
  get_dhcp_pid (world m) = (Return fetched, w') ->
  get_dhcp_client_pid m =
    (Return (sorted fetched),
     mkMachine
       (set_dhcp_warning_enabled (negb (len_is_0 (sorted fetched))) (self m))
       w'
       (trace m ++
          GetDhcpPid ::
          (if len_is_0 (sorted fetched) && dhcp_warning_enabled (self m)
           then [dhcp_not_running] else []))).
Proof.
  intros H. unfold get_dhcp_client_pid. unfold_monad. simp_machine.
  rewrite H; simp_machine.
  destruct (len_is_0 (sorted fetched)) eqn:Elen,
           (dhcp_warning_enabled (self m));
    simp_machine; rewrite ?Elen, <- ?app_assoc; reflexivity.
Qed.

(** The query when [get_dhcp_pid] raises. *)
Lemma get_dhcp_client_pid_failed (m : Machine W) (e : exn) (w' : W) :
  get_dhcp_pid (world m) = (Raise e, w') ->
  get_dhcp_client_pid m =
    (Return [],
     mkMachine
       (set_dhcp_warning_enabled false (self m))
       w'
       (trace m ++
          GetDhcpPid ::
          (if dhcp_warning_enabled (self m)
           then [dhcp_fetch_failed e] else []))).
Proof.
  intros H. unfold get_dhcp_client_pid. unfold_monad. simp_machine.
  rewrite H; simp_machine.
  destruct (dhcp_warning_enabled (self m));
    simp_machine; rewrite <- ?app_assoc; reflexivity.
Qed.

(** Failing or not, the query returns, and only touches the warning flag. *)
Lemma get_dhcp_client_pid_returns (m : Machine W) :
  exists pid m',
    get_dhcp_client_pid m = (Return pid, m') /\
    self m' = set_dhcp_warning_enabled (negb (len_is_0 pid)) (self m).
Proof.
  destruct (get_dhcp_pid (world m)) as [[fetched|e] w'] eqn:H.
  - rewrite (get_dhcp_client_pid_fetched m fetched w' H).
    eexists; eexists; split; reflexivity.
  - rewrite (get_dhcp_client_pid_failed m e w' H).
    eexists; eexists; split; reflexivity.
Qed.

(** The warnings of one query. *)
Lemma get_dhcp_client_pid_warnings (m : Machine W) :
  dhcp_warnings (events_since m (snd (get_dhcp_client_pid m))) =
    match fst (get_dhcp_pid (world m)) with
    | Return [] =>
        if dhcp_warning_enabled (self m) then [dhcp_not_running] else []
    | _ => []
    end.
Proof.
  destruct (get_dhcp_pid (world m)) as [[fetched|e] w'] eqn:H; simpl fst.
  - rewrite (get_dhcp_client_pid_fetched m fetched w' H); simpl snd.
    erewrite events_since_app by reflexivity.
    rewrite len_is_0_sorted.
    destruct fetched, (dhcp_warning_enabled (self m)); reflexivity.
  - rewrite (get_dhcp_client_pid_failed m e w' H); simpl snd.
    erewrite events_since_app by reflexivity.
    destruct (dhcp_warning_enabled (self m)); reflexivity.
Qed.

(** The query calls no [remove_firewall]. *)
Lemma get_dhcp_client_pid_trace (m : Machine W) :
  exists evs,
    trace (snd (get_dhcp_client_pid m)) = trace m ++ evs /\
    remove_firewall_calls evs = [].
Proof.
  destruct (get_dhcp_pid (world m)) as [[fetched|e] w'] eqn:H.
  - rewrite (get_dhcp_client_pid_fetched m fetched w' H); simpl snd.
    eexists; split; [reflexivity|].
    destruct (len_is_0 (sorted fetched) && dhcp_warning_enabled (self m));
      reflexivity.
  - rewrite (get_dhcp_client_pid_failed m e w' H); simpl snd.
    eexists; split; [reflexivity|].
    destruct (dhcp_warning_enabled (self m)); reflexivity.
Qed.

(** The query assigns one field. *)
Lemma get_dhcp_client_pid_self (m : Machine W) :
  exists flag,
    self (snd (get_dhcp_client_pid m)) = set_dhcp_warning_enabled flag (self m).
Proof.
  destruct (get_dhcp_client_pid_returns m) as [pid [m' [E Hself]]].
  rewrite E. eexists. exact Hself.
Qed.

(** *** The firewall reconciler *)

(** The reconciler writes one field, and only with [True]. *)
Lemma set_firewall_rules_self (endpoint : string) (m : Machine W) :
  self (snd (set_firewall_rules endpoint m)) = self m \/
  self (snd (set_firewall_rules endpoint m)) =
    set_has_reset_firewall_rules true (self m).
Proof.
  unfold set_firewall_rules. unfold_monad. simp_machine.
  next_call; [|now left].
  next_call; [|now left].
  destruct a0; simp_machine; [|now left].
  destruct (has_reset_firewall_rules (self m)); simp_machine.
  - next_call; [|now left]. next_call; now left.
  - next_call; [|now left]. next_call; [|now right]. next_call; now right.
Qed.

(** Once the flag is set, the reconciler no longer calls
    [remove_firewall], and leaves the fields alone. *)
Lemma set_firewall_rules_armed (endpoint : string) (m : Machine W) :
  has_reset_firewall_rules (self m) = true ->
  self (snd (set_firewall_rules endpoint m)) = self m /\
  exists evs,
    trace (snd (set_firewall_rules endpoint m)) = trace m ++ evs /\
    remove_firewall_calls evs = [].
Proof.
  intros Hflag. unfold set_firewall_rules. unfold_monad. simp_machine.
  next_call; [|split; [reflexivity|now exists [RemoveRulesFiles]]].
  next_call;
    [|split; [reflexivity|
              exists [RemoveRulesFiles; ConfEnableFirewall];
              now rewrite <- app_assoc]].
  destruct a0; simp_machine;
    [|split; [reflexivity|
              exists [RemoveRulesFiles; ConfEnableFirewall];
              now rewrite <- app_assoc]].
  rewrite Hflag; simp_machine.
  next_call; [next_call|]; (split; [reflexivity|]);
    eexists; rewrite <- ?app_assoc; simpl; (split; [reflexivity|reflexivity]).
Qed.

(** The first call of the reconciler on a handler whose flag is unset, with
    the firewall enabled and [remove_firewall] returning: the rule is
    removed once and the flag is set, whatever [enable_firewall] and
    [add_periodic] then do. *)
Lemma set_firewall_rules_first (endpoint : string) (m : Machine W) (w1 w2 w3 : W) :
  has_reset_firewall_rules (self m) = false ->
  remove_rules_files (world m) = (Return tt, w1) ->
  conf_enable_firewall w1 = (Return true, w2) ->
  remove_firewall endpoint (os_getuid w2) w2 = (Return tt, w3) ->
  has_reset_firewall_rules (self (snd (set_firewall_rules endpoint m))) = true /\
  exists evs,
    trace (snd (set_firewall_rules endpoint m)) = trace m ++ evs /\
    remove_firewall_calls evs = [RemoveFirewall endpoint (os_getuid w2)].
Proof.
  intros Hflag H1 H2 H3. unfold set_firewall_rules. unfold_monad. simp_machine.
  rewrite H1; simp_machine. rewrite H2; simp_machine.
  rewrite Hflag; simp_machine. rewrite H3; simp_machine.
  next_call; [next_call|]; (split; [reflexivity|]);
    eexists; rewrite <- ?app_assoc; simpl; (split; [reflexivity|reflexivity]).
Qed.

Lemma no_further_reset_refl (m : Machine W) : no_further_reset m m.
Proof.
  intros H; split; [exact H|]. exists []. now rewrite app_nil_r.
Qed.

Lemma no_further_reset_trans (m1 m2 m3 : Machine W) :
  no_further_reset m1 m2 -> no_further_reset m2 m3 -> no_further_reset m1 m3.
Proof.
  intros H12 H23 H1.
  destruct (H12 H1) as [H2 [e12 [T12 F12]]].
  destruct (H23 H2) as [H3 [e23 [T23 F23]]].
  split; [exact H3|]. exists (e12 ++ e23). split.
  - now rewrite T23, T12, app_assoc.
  - unfold remove_firewall_calls in *. now rewrite filter_app, F12, F23.
Qed.

Lemma no_further_reset_within (ops : list operation) (m : Machine W) :
  within_lifetime ops = true -> no_further_reset m (perform_all ops m).
Proof.
  apply stable_within_lifetime.
  - apply no_further_reset_refl.
  - apply no_further_reset_trans.
  - intros e m0 w' He Hflag. split; [exact Hflag|].
    exists [e]. split; [reflexivity|].
    unfold remove_firewall_calls; simpl. now rewrite He.
  - intros f m0 _ Hf _ Hflag. simpl. split; [now rewrite Hf|].
    exists []. now rewrite app_nil_r.
  - intros endpoint m0 Hflag.
    destruct (set_firewall_rules_armed endpoint m0 Hflag) as [E Hevs].
    split; [now rewrite E|exact Hevs].
  - intros m0 Hflag.
    destruct (get_dhcp_client_pid_self m0) as [flag E].
    split; [now rewrite E|apply get_dhcp_client_pid_trace].
Qed.


(** C9. Over any sequence of operations on one instance ([run], [stop],
    loop iterations and the other methods), once
    [has_reset_firewall_rules] is true it is true ever after: a [stop()]
    followed by another [run()] does not clear it. *)
Theorem has_reset_firewall_rules_never_cleared
    (m : Machine W) (ops1 ops2 : list operation) :
  has_reset_firewall_rules (self (perform_all ops1 m)) = true ->
  has_reset_firewall_rules (self (perform_all (ops1 ++ ops2) m)) = true.
Proof.
  rewrite perform_all_app. generalize (perform_all ops1 m) as m1. intros m1.
  apply (stable_perform_all
           (fun a b => has_reset_firewall_rules (self a) = true ->
                       has_reset_firewall_rules (self b) = true)).
  - auto.
  - auto.
  - intros e m0 w' _ H; exact H.
  - intros f m0 _ Hf _ H; simpl. now rewrite Hf.
  - intros endpoint m0 H.
    destruct (set_firewall_rules_self endpoint m0) as [E|E]; rewrite E;
      [exact H|reflexivity].
  - intros m0 H.
    destruct (get_dhcp_client_pid_self m0) as [flag E]. now rewrite E.
  - intros dst_ip uid m0 w' H; exact H.
Qed.

(** *** The archive scheduler *)

(** C3. No operation writes [last_archive]: after any sequence of
    operations (loop iterations, [archive_history] itself, [run], ...) the
    field is what it was, so on a handler as constructed it is [None] for
    ever, also after purge and archive have been called. *)
Theorem last_archive_never_written (ops : list operation) :
  (forall m : Machine W,
      last_archive (self (perform_all ops m)) = last_archive (self m)) /\
  (forall (w : W) (t : list event),
      last_archive (self (perform_all ops (mkMachine EnvHandler_init w t)))
      = None).
Proof.
  assert (H : forall m : Machine W,
             last_archive (self (perform_all ops m)) = last_archive (self m)).
  { intros m.
    apply (stable_perform_all
             (fun a b => last_archive (self b) = last_archive (self a))).
    - reflexivity.
    - intros m1 m2 m3 H12 H23; now rewrite H23.
    - reflexivity.
    - intros f m0 Hf _ _; simpl. apply Hf.
    - intros endpoint m0.
      destruct (set_firewall_rules_self endpoint m0) as [E|E]; now rewrite E.
    - intros m0.
      destruct (get_dhcp_client_pid_self m0) as [flag E]. now rewrite E.
    - reflexivity. }
  split; [exact H|]. intros w t. now rewrite H.
Qed.

(** *** The supervisor *)

(** C10. While [server_thread] is [None], as [__init__] leaves it,
    [is_alive()] does not answer: it raises [AttributeError] on the
    missing attribute, and asks no thread. *)
Theorem is_alive_before_start (m : Machine W) :
  server_thread (self m) = None ->
  is_alive m =
    (Raise (AttributeError "'NoneType' object has no attribute 'is_alive'"), m)
  /\ forall answer : bool, fst (is_alive m) <> Return answer.
Proof.
  intros Hnone.
  assert (E : is_alive m =
    (Raise (AttributeError "'NoneType' object has no attribute 'is_alive'"), m)).
  { unfold is_alive, server_thread_attr. unfold_monad. simp_machine.
    rewrite Hnone. reflexivity. }
  split; [exact E|]. intros answer. rewrite E. discriminate.
Qed.

(** *** The warning of the DHCP pid query *)

(** C8. When [get_dhcp_pid] raises, [get_dhcp_client_pid] does not: it
    returns the empty list, having logged the error only if the warning
    flag was set, and leaves the flag unset and the other fields alone. *)
Theorem get_dhcp_client_pid_catches (m : Machine W) (e : exn) (w' : W) :
  get_dhcp_pid (world m) = (Raise e, w') ->
  exists m',
    get_dhcp_client_pid m = (Return [], m') /\
    events_since m m' =
      GetDhcpPid ::
      (if dhcp_warning_enabled (self m) then [dhcp_fetch_failed e] else []) /\
    self m' = set_dhcp_warning_enabled false (self m) /\
    world m' = w'.
Proof.
  intros H. rewrite (get_dhcp_client_pid_failed m e w' H).
  eexists; split; [reflexivity|]. simpl.
  split; [|split; reflexivity].
  now apply events_since_app.
Qed.

(** Only the query assigns the warning flag. *)
Lemma dhcp_warning_enabled_without_query (ops : list operation) (m : Machine W) :
  without_query ops = true ->
  dhcp_warning_enabled (self (perform_all ops m)) = dhcp_warning_enabled (self m).
Proof.
  apply (stable_without_query
           (fun a b => dhcp_warning_enabled (self b) = dhcp_warning_enabled (self a))).
  - reflexivity.
  - intros m1 m2 m3 H12 H23; now rewrite H23.
  - reflexivity.
  - intros f m0 _ _ Hf; simpl. apply Hf.
  - intros endpoint m0.
    destruct (set_firewall_rules_self endpoint m0) as [E|E]; now rewrite E.
Qed.

(** C7. The warning is logged on the transition into the empty state
    only.  A query returns the sorted answer of [get_dhcp_pid], or the
    empty list when [get_dhcp_pid] raised.  It logs the warning exactly
    when [get_dhcp_pid] returned no pid while the flag was set (when it
    raised, the error is logged instead, under the same flag).  The flag is
    set on construction, after a query it is set exactly when
    [get_dhcp_pid] returned some pid, and no operation between two queries
    assigns it.  So the next query logs the warning exactly when this one
    found some pid and [get_dhcp_pid] then returns none: after an empty
    answer, or a failure, the next query is silent. *)
Theorem dhcp_warning_only_on_transition :
  dhcp_warning_enabled EnvHandler_init = true /\
  forall m : Machine W,
  exists pid m',
    get_dhcp_client_pid m = (Return pid, m') /\
    pid =
      match fst (get_dhcp_pid (world m)) with
      | Return fetched => sorted fetched
      | Raise _ => []
      end /\
    self m' = set_dhcp_warning_enabled (negb (len_is_0 pid)) (self m) /\
    world m' = snd (get_dhcp_pid (world m)) /\
    events_since m m' =
      GetDhcpPid ::
      match fst (get_dhcp_pid (world m)) with
      | Return [] =>
          if dhcp_warning_enabled (self m) then [dhcp_not_running] else []
      | Return (_ :: _) => []
      | Raise e =>
          if dhcp_warning_enabled (self m) then [dhcp_fetch_failed e] else []
      end /\
    dhcp_warnings (events_since m m') =
      match fst (get_dhcp_pid (world m)) with
      | Return [] =>
          if dhcp_warning_enabled (self m) then [dhcp_not_running] else []
      | _ => []
      end /\
    dhcp_warning_enabled (self m') = negb (len_is_0 pid) /\
    dhcp_warning_enabled (self m') =
      match fst (get_dhcp_pid (world m)) with
      | Return (_ :: _) => true
      | _ => false
      end /\
    forall between : list operation,
      without_query between = true ->
      let m'' := perform_all between m' in
      dhcp_warnings (events_since m'' (snd (get_dhcp_client_pid m''))) =
        match pid, fst (get_dhcp_pid (world m'')) with
        | _ :: _, Return [] => [dhcp_not_running]
        | _, _ => []
        end /\
      dhcp_warnings (events_since m'' (snd (get_dhcp_client_pid m''))) =
        match fst (get_dhcp_pid (world m)), fst (get_dhcp_pid (world m'')) with
        | Return (_ :: _), Return [] => [dhcp_not_running]
        | _, _ => []
        end.
Proof.
  split; [reflexivity|]. intros m.
  assert (Hq : exists pid m',
             get_dhcp_client_pid m = (Return pid, m') /\
             pid =
               match fst (get_dhcp_pid (world m)) with
               | Return fetched => sorted fetched
               | Raise _ => []
               end /\
             self m' = set_dhcp_warning_enabled (negb (len_is_0 pid)) (self m) /\
             world m' = snd (get_dhcp_pid (world m)) /\
             events_since m m' =
               GetDhcpPid ::
               match fst (get_dhcp_pid (world m)) with
               | Return [] =>
                   if dhcp_warning_enabled (self m)
                   then [dhcp_not_running] else []
               | Return (_ :: _) => []
               | Raise e =>
                   if dhcp_warning_enabled (self m)
                   then [dhcp_fetch_failed e] else []
               end).
  { destruct (get_dhcp_pid (world m)) as [[fetched|e] w'] eqn:H; simpl fst.
    - rewrite (get_dhcp_client_pid_fetched m fetched w' H).
      eexists; eexists; split; [reflexivity|]. simpl.
      split; [reflexivity|]. split; [reflexivity|]. split; [reflexivity|].
      apply events_since_app. simpl. rewrite len_is_0_sorted.
      destruct fetched; reflexivity.
    - rewrite (get_dhcp_client_pid_failed m e w' H).
      eexists; eexists; split; [reflexivity|]. simpl.
      split; [reflexivity|]. split; [reflexivity|]. split; [reflexivity|].
      now apply events_since_app. }
  destruct Hq as [pid [m' [E [Hpid [Hself [Hworld Hevents]]]]]].
  exists pid, m'.
  assert (Hflag : dhcp_warning_enabled (self m') = negb (len_is_0 pid))
    by now rewrite Hself.
  assert (Harmed : negb (len_is_0 pid) =
                   match fst (get_dhcp_pid (world m)) with
                   | Return (_ :: _) => true
                   | _ => false
                   end).
  { rewrite Hpid.
    destruct (fst (get_dhcp_pid (world m))) as [fetched|e]; [|reflexivity].
    rewrite len_is_0_sorted. destruct fetched; reflexivity. }
  repeat (split; [assumption|]).
  split; [rewrite <- (get_dhcp_client_pid_warnings m), E; reflexivity|].
  split; [exact Hflag|]. split; [now rewrite Hflag|].
  intros between Hbetween m''.
  rewrite (get_dhcp_client_pid_warnings m'').
  unfold m''. rewrite (dhcp_warning_enabled_without_query between m' Hbetween).
  rewrite Hflag. split.
  - destruct pid as [|p rest]; simpl;
      destruct (fst (get_dhcp_pid (world (perform_all between m'))))
        as [[|q fetched]|e];
      reflexivity.
  - rewrite Harmed.
    destruct (fst (get_dhcp_pid (world m))) as [[|p0 fetched0]|e0];
      destruct (fst (get_dhcp_pid (world (perform_all between m'))))
        as [[|q fetched]|e];
      reflexivity.
Qed.

(** *** The DHCP restart detector *)

Lemma all_pids_alive_self (pids : list Z) (m : Machine W) :
  self (snd (all_pids_alive pids m)) = self m.
Proof.
  revert m; induction pids as [|pid rest IH]; intros m; simpl; [reflexivity|].
  unfold_monad. simp_machine.
  destruct (check_pid_alive pid (world m)) as [[[|]|e] w']; simp_machine;
    [|reflexivity|reflexivity].
  now rewrite IH.
Qed.

(** Step 3 of the detector: some pid of the stored list was reported dead,
    and the query then returned [new_pid]. *)
Lemma handle_dhclient_restart_refetch (m m1 m2 : Machine W) (new_pid : list Z) :
  dhcp_id_list (self m) <> [] ->
  all_pids_alive (dhcp_id_list (self m)) m = (Return false, m1) ->
  get_dhcp_client_pid m1 = (Return new_pid, m2) ->
  handle_dhclient_restart m =
    if negb (len_is_0 new_pid) && negb (list_eqb new_pid (dhcp_id_list (self m)))
    then
      (emit dhcp_restart_detected ;;
       call ConfRoutes conf_routes ;;
       modify (set_dhcp_id_list new_pid)) m2
    else (Return tt, m2).
Proof.
  intros Hne Hall Hfetch.
  assert (Hids : dhcp_id_list (self m2) = dhcp_id_list (self m)).
  { destruct (get_dhcp_client_pid_returns m1) as [pid [m' [E Hself]]].
    rewrite Hfetch in E. injection E as _ <-.
    rewrite Hself. simpl.
    rewrite <- (all_pids_alive_self (dhcp_id_list (self m)) m), Hall.
    reflexivity. }
  unfold handle_dhclient_restart. unfold_monad. simp_machine.
  destruct (dhcp_id_list (self m)) as [|pid0 rest] eqn:Eids; [congruence|].
  cbn [len_is_0]. rewrite Eids, Hall; simp_machine.
  rewrite Hfetch; simp_machine. rewrite Hids.
  destruct (len_is_0 new_pid); simp_machine; [reflexivity|].
  destruct (list_eqb new_pid (pid0 :: rest)); reflexivity.
Qed.

(** C1, as the code has it. On a tick that enters step 3 (the stored list
    is not empty and a pid of it is reported dead): a refetched list that
    is not empty is the stored list after the tick, whether or not it
    equals the old one (it is written, once [conf_routes] has returned,
    when it differs); an empty refetched list is not stored: the old list
    stays, no route is reconfigured, and the next tick checks the old pids
    again instead of taking the bootstrap path. *)
Theorem dhclient_restart_stores_nonempty_refetch
    (m m1 m2 : Machine W) (new_pid : list Z) :
  dhcp_id_list (self m) <> [] ->
  all_pids_alive (dhcp_id_list (self m)) m = (Return false, m1) ->
  get_dhcp_client_pid m1 = (Return new_pid, m2) ->
  (new_pid <> [] ->
   (new_pid <> dhcp_id_list (self m) ->
    exists w3, conf_routes (world m2) = (Return tt, w3)) ->
   fst (handle_dhclient_restart m) = Return tt /\
   dhcp_id_list (self (snd (handle_dhclient_restart m))) = new_pid) /\
  (new_pid = [] ->
   handle_dhclient_restart m = (Return tt, m2) /\
   dhcp_id_list (self m2) = dhcp_id_list (self m) /\
   len_is_0 (dhcp_id_list (self m2)) = false).
Proof.
  intros Hne Hall Hfetch.
  assert (Hids : dhcp_id_list (self m2) = dhcp_id_list (self m)).
  { destruct (get_dhcp_client_pid_returns m1) as [pid [m' [E Hself]]].
    rewrite Hfetch in E. injection E as _ <-.
    rewrite Hself. simpl.
    rewrite <- (all_pids_alive_self (dhcp_id_list (self m)) m), Hall.
    reflexivity. }
  rewrite (handle_dhclient_restart_refetch m m1 m2 new_pid Hne Hall Hfetch).
  split.
  - intros Hnew Hroutes.
    destruct (len_is_0 new_pid) eqn:Elen;
      [apply len_is_0_true in Elen; congruence|].
    destruct (list_eqb new_pid (dhcp_id_list (self m))) eqn:Eeq; simpl.
    + apply list_eqb_eq in Eeq. split; [reflexivity|congruence].
    + destruct Hroutes as [w3 Hroutes].
      { intros E. apply list_eqb_eq in E. congruence. }
      unfold_monad. simp_machine. rewrite Hroutes. split; reflexivity.
  - intros ->. simpl. repeat split; [exact Hids|].
    rewrite Hids. destruct (dhcp_id_list (self m)); [congruence|reflexivity].
Qed.


(** *** The hostname change detector *)

(** A live hostname that differs from the cached one. *)
Lemma handle_hostname_update_changed
    (m : Machine W) (curr : string) (w1 w2 w3 : W) :
  hostname_differs curr (hostname (self m)) = true ->
  socket_gethostname (world m) = (Return curr, w1) ->
  set_hostname curr w1 = (Return tt, w2) ->
  publish_hostname curr w2 = (Return tt, w3) ->
  handle_hostname_update m =
    (Return tt,
     mkMachine (set_hostname_field (Some curr) (self m)) w3
       (trace m ++
          [SocketGethostname;
           hostname_change_detected (hostname (self m)) curr;
           SetHostname curr;
           PublishHostname curr])).
Proof.
  intros Hdiff Hlive Hset Hpublish.
  unfold handle_hostname_update. unfold_monad. simp_machine.
  rewrite Hlive; simp_machine. rewrite Hdiff; simp_machine.
  rewrite Hset; simp_machine. rewrite Hpublish; simp_machine.
  rewrite <- !app_assoc. reflexivity.
Qed.

(** A live hostname equal to the cached one. *)
Lemma handle_hostname_update_same (m : Machine W) (curr : string) (w1 : W) :
  hostname_differs curr (hostname (self m)) = false ->
  socket_gethostname (world m) = (Return curr, w1) ->
  handle_hostname_update m =
    (Return tt, mkMachine (self m) w1 (trace m ++ [SocketGethostname])).
Proof.
  intros Hsame Hlive.
  unfold handle_hostname_update. unfold_monad. simp_machine.
  rewrite Hlive; simp_machine. rewrite Hsame. reflexivity.
Qed.


(** *** The archive gate *)

Lemma ARCHIVE_INTERVAL_24h : ARCHIVE_INTERVAL = 86400000000.
Proof. reflexivity. Qed.


End Properties.

(** ** More on the runtime fragment *)

Lemma insert_Permutation (x : Z) (l : list Z) : Permutation (x :: l) (insert x l).
Proof.
  induction l as [|y t IH]; simpl; [reflexivity|].
  destruct (x <=? y); [reflexivity|].
  rewrite perm_swap. now apply perm_skip.
Qed.

Lemma sorted_Permutation (l : list Z) : Permutation l (sorted l).
Proof.
  induction l as [|x t IH]; simpl; [reflexivity|].
  rewrite <- insert_Permutation. now apply perm_skip.
Qed.

(** An ascending list is the only ascending arrangement of its members. *)
Lemma ascending_Permutation_eq (a b : list Z) :
  ascending a -> ascending b -> Permutation a b -> a = b.
Proof.
  revert b; induction a as [|x a IH]; intros b Ha Hb Hperm.
  - apply Permutation_nil in Hperm. now subst.
  - destruct b as [|y b].
    + apply Permutation_sym, Permutation_nil in Hperm. discriminate.
    + destruct Ha as [Hx Ha], Hb as [Hy Hb].
      assert (Exy : x = y).
      { assert (Hin : In x (y :: b))
          by (eapply Permutation_in; [exact Hperm|now left]).
        assert (Hin' : In y (x :: a))
          by (eapply Permutation_in;
              [apply Permutation_sym; exact Hperm|now left]).
        destruct Hin as [E|Hin]; [now subst|].
        destruct Hin' as [E|Hin']; [now subst|].
        specialize (Hx y Hin'). specialize (Hy x Hin). lia. }
      subst y. f_equal. apply IH; auto.
      now apply Permutation_cons_inv in Hperm.
Qed.

(** [sorted] does not depend on the order of its argument. *)
Lemma sorted_of_Permutation (l stored : list Z) :
  ascending stored -> Permutation l stored -> sorted l = stored.
Proof.
  intros Hasc Hperm. apply ascending_Permutation_eq.
  - apply sorted_ascending.
  - exact Hasc.
  - rewrite <- sorted_Permutation. exact Hperm.
Qed.

Lemma list_eqb_refl (l : list Z) : list_eqb l l = true.
Proof. now apply list_eqb_eq. Qed.

(** ** Behaviour of the methods beyond the claims *)

Section Behaviour.
Context {W : Type}.
Context {osutil : OSUtil W} {dhcp_handler : DhcpHandler W}
        {archiver : StateArchiver W} {conf : Conf W}
        {protocol_env : ProtocolEnv W} {stdlib : StdLib W}.

(** *** The DHCP restart detector *)

(** When every pid is reported alive, each was asked once, in order. *)
Lemma all_pids_alive_true (pids : list Z) (m m1 : Machine W) :
  all_pids_alive pids m = (Return true, m1) ->
  self m1 = self m /\ trace m1 = trace m ++ map CheckPidAlive pids.
Proof.
  revert m; induction pids as [|pid rest IH]; intros m; simpl.
  - unfold_monad. intros E; injection E as <-.
    split; [reflexivity|now rewrite app_nil_r].
  - unfold_monad. simp_machine.
    destruct (check_pid_alive pid (world m)) as [[[|]|e] w']; simp_machine;
      try discriminate.
    intros E. destruct (IH _ E) as [Hself Htrace].
    split; [exact Hself|]. rewrite Htrace. simpl. now rewrite <- app_assoc.
Qed.

(** X1. While every stored pid is reported alive the detector does
    nothing: each pid is asked once, in order; the pids are not fetched
    again, no route is reconfigured, no field is assigned. *)
Theorem all_alive_is_no_restart (m m1 : Machine W) :
  dhcp_id_list (self m) <> [] ->
  all_pids_alive (dhcp_id_list (self m)) m = (Return true, m1) ->
  handle_dhclient_restart m = (Return tt, m1) /\
  self m1 = self m /\
  events_since m m1 = map CheckPidAlive (dhcp_id_list (self m)).
Proof.
  intros Hne Hall.
  destruct (all_pids_alive_true _ m m1 Hall) as [Hself Htrace].
  split; [|split; [exact Hself|now apply events_since_app]].
  unfold handle_dhclient_restart. unfold_monad. simp_machine.
  destruct (dhcp_id_list (self m)) as [|pid0 rest] eqn:Eids; [congruence|].
  cbn [len_is_0]. rewrite Eids, Hall. reflexivity.
Qed.

(** X2. With no pid stored the detector takes the bootstrap path: it
    stores what the query returns (the empty list when the query failed)
    and returns; apart from the query it only writes to the log: no pid is
    asked about and no route is reconfigured, also when pids appear. *)
Theorem bootstrap_stores_without_restart (m : Machine W) :
  dhcp_id_list (self m) = [] ->
  exists pid m1 log,
    get_dhcp_client_pid m = (Return pid, m1) /\
    handle_dhclient_restart m =
      (Return tt,
       mkMachine (set_dhcp_id_list pid (self m1)) (world m1) (trace m1)) /\
    trace m1 = trace m ++ GetDhcpPid :: log /\
    forallb is_log_line log = true.
Proof.
  intros Hempty.
  assert (Hq : exists pid m1 log,
             get_dhcp_client_pid m = (Return pid, m1) /\
             trace m1 = trace m ++ GetDhcpPid :: log /\
             forallb is_log_line log = true).
  { destruct (get_dhcp_pid (world m)) as [[fetched|e] w'] eqn:H.
    - rewrite (get_dhcp_client_pid_fetched m fetched w' H).
      eexists; eexists; eexists; split; [reflexivity|].
      split; [reflexivity|].
      destruct (len_is_0 (sorted fetched) && dhcp_warning_enabled (self m));
        reflexivity.
    - rewrite (get_dhcp_client_pid_failed m e w' H).
      eexists; eexists; eexists; split; [reflexivity|].
      split; [reflexivity|].
      destruct (dhcp_warning_enabled (self m)); reflexivity. }
  destruct Hq as [pid [m1 [log [E [Htrace Hlog]]]]].
  exists pid, m1, log. repeat split; try assumption.
  unfold handle_dhclient_restart. unfold_monad. simp_machine.
  rewrite Hempty. cbn [len_is_0]. rewrite E. reflexivity.
Qed.

(** X3. What the query returns is the answer of [get_dhcp_pid] in
    ascending order: the same pids, as many times each. *)
Theorem query_returns_sorted_pids (m : Machine W) (fetched : list Z) (w' : W) :
  get_dhcp_pid (world m) = (Return fetched, w') ->
  exists pid m',
    get_dhcp_client_pid m = (Return pid, m') /\
    ascending pid /\
    Permutation fetched pid.
Proof.
  intros H. rewrite (get_dhcp_client_pid_fetched m fetched w' H).
  eexists; eexists; split; [reflexivity|]. split.
  - apply sorted_ascending.
  - apply sorted_Permutation.
Qed.

(** X4. The order in which [get_dhcp_pid] lists the pids does not count:
    when a pid is reported dead but the refetch lists exactly the stored
    pids, in any order, no restart is declared: no route is reconfigured
    and the stored list stays. *)
Theorem same_pids_in_any_order_is_no_restart
    (m m1 : Machine W) (fetched : list Z) (w2 : W) :
  dhcp_id_list (self m) <> [] ->
  ascending (dhcp_id_list (self m)) ->
  all_pids_alive (dhcp_id_list (self m)) m = (Return false, m1) ->
  get_dhcp_pid (world m1) = (Return fetched, w2) ->
  Permutation fetched (dhcp_id_list (self m)) ->
  exists m2,
    handle_dhclient_restart m = (Return tt, m2) /\
    dhcp_id_list (self m2) = dhcp_id_list (self m) /\
    events_since m1 m2 = [GetDhcpPid].
Proof.
  intros Hne Hasc Hall Hfetch Hperm.
  pose proof (get_dhcp_client_pid_fetched m1 fetched w2 Hfetch) as Hget.
  rewrite (sorted_of_Permutation fetched _ Hasc Hperm) in Hget.
  rewrite (handle_dhclient_restart_refetch m m1 _ _ Hne Hall Hget).
  rewrite list_eqb_refl, andb_false_r.
  eexists; split; [reflexivity|]. simpl.
  assert (Hself : self m1 = self m)
    by (rewrite <- (all_pids_alive_self (dhcp_id_list (self m)) m), Hall;
        reflexivity).
  split; [now rewrite Hself|].
  apply events_since_app. simpl.
  destruct (dhcp_id_list (self m)); [congruence|reflexivity].
Qed.

(** X5. A query that fails while a restart is being checked is not fatal
    and declares nothing: the detector returns, the stored pids stay, and
    no route is reconfigured. *)
Theorem failed_refetch_keeps_pids (m m1 : Machine W) (e : exn) (w2 : W) :
  dhcp_id_list (self m) <> [] ->
  all_pids_alive (dhcp_id_list (self m)) m = (Return false, m1) ->
  get_dhcp_pid (world m1) = (Raise e, w2) ->
  exists m2,
    handle_dhclient_restart m = (Return tt, m2) /\
    dhcp_id_list (self m2) = dhcp_id_list (self m) /\
    world m2 = w2 /\
    conf_routes_calls (events_since m1 m2) = [].
Proof.
  intros Hne Hall Hfetch.
  pose proof (get_dhcp_client_pid_failed m1 e w2 Hfetch) as Hget.
  rewrite (handle_dhclient_restart_refetch m m1 _ _ Hne Hall Hget).
  eexists; split; [reflexivity|]. simpl.
  assert (Hself : self m1 = self m)
    by (rewrite <- (all_pids_alive_self (dhcp_id_list (self m)) m), Hall;
        reflexivity).
  split; [now rewrite Hself|]. split; [reflexivity|].
  erewrite events_since_app by reflexivity.
  destruct (dhcp_warning_enabled (self m1)); reflexivity.
Qed.


(** *** The hostname change detector *)

(** X7. A failure of [set_hostname] or of [publish_hostname] goes out of
    the detector, and the cached name is left as it was: the change is
    found again on the next tick.  After a failure of [set_hostname],
    [publish_hostname] is not called. *)
Theorem hostname_failure_keeps_cache (m : Machine W) (curr : string) (w1 : W) :
  hostname_differs curr (hostname (self m)) = true ->
  socket_gethostname (world m) = (Return curr, w1) ->
  (forall (e : exn) (w2 : W),
      set_hostname curr w1 = (Raise e, w2) ->
      handle_hostname_update m =
        (Raise e,
         mkMachine (self m) w2
           (trace m ++
              [SocketGethostname;
               hostname_change_detected (hostname (self m)) curr;
               SetHostname curr]))) /\
  (forall (e : exn) (w2 w3 : W),
      set_hostname curr w1 = (Return tt, w2) ->
      publish_hostname curr w2 = (Raise e, w3) ->
      handle_hostname_update m =
        (Raise e,
         mkMachine (self m) w3
           (trace m ++
              [SocketGethostname;
               hostname_change_detected (hostname (self m)) curr;
               SetHostname curr;
               PublishHostname curr]))).
Proof.
  intros Hdiff Hlive. split.
  - intros e w2 Hset.
    unfold handle_hostname_update. unfold_monad. simp_machine.
    rewrite Hlive; simp_machine. rewrite Hdiff; simp_machine.
    rewrite Hset; simp_machine. rewrite <- !app_assoc. reflexivity.
  - intros e w2 w3 Hset Hpublish.
    unfold handle_hostname_update. unfold_monad. simp_machine.
    rewrite Hlive; simp_machine. rewrite Hdiff; simp_machine.
    rewrite Hset; simp_machine. rewrite Hpublish; simp_machine.
    rewrite <- !app_assoc. reflexivity.
Qed.

Lemma hostname_differs_same (curr : string) :
  hostname_differs curr (Some curr) = false.
Proof. simpl. now rewrite String.eqb_refl. Qed.

(** X8. Once a change of name has gone through, the detector is quiet: on
    the next tick, the name of the host being the same, it only reads the
    name; neither [set_hostname] nor [publish_hostname] is called again. *)
Theorem hostname_update_settles
    (m : Machine W) (curr : string) (w1 w2 w3 w4 : W) :
  hostname_differs curr (hostname (self m)) = true ->
  socket_gethostname (world m) = (Return curr, w1) ->
  set_hostname curr w1 = (Return tt, w2) ->
  publish_hostname curr w2 = (Return tt, w3) ->
  socket_gethostname w3 = (Return curr, w4) ->
  exists m1,
    handle_hostname_update m = (Return tt, m1) /\
    hostname (self m1) = Some curr /\
    handle_hostname_update m1 =
      (Return tt, mkMachine (self m1) w4 (trace m1 ++ [SocketGethostname])).
Proof.
  intros Hdiff Hlive Hset Hpublish Hlive'.
  rewrite (handle_hostname_update_changed m curr w1 w2 w3 Hdiff Hlive Hset Hpublish).
  eexists; split; [reflexivity|]. split; [reflexivity|].
  apply (handle_hostname_update_same _ curr);
    [apply hostname_differs_same|exact Hlive'].
Qed.

(** *** The firewall reconciler *)

(** X9. Past the one-time reset, every call with the firewall enabled
    asserts the rule again and hands the answer of [enable_firewall] to
    the telemetry: a failure to enable (answer [False]) is not raised, it
    is reported with [is_success=False]. *)
Theorem firewall_outcome_reported
    (endpoint : string) (m : Machine W) (success : bool) (w1 w2 w3 w4 : W) :
  has_reset_firewall_rules (self m) = true ->
  remove_rules_files (world m) = (Return tt, w1) ->
  conf_enable_firewall w1 = (Return true, w2) ->
  enable_firewall endpoint (os_getuid w2) w2 = (Return success, w3) ->
  add_periodic success false w3 = (Return tt, w4) ->
  set_firewall_rules endpoint m =
    (Return tt,
     mkMachine (self m) w4
       (trace m ++
          [RemoveRulesFiles; ConfEnableFirewall;
           EnableFirewall endpoint (os_getuid w2);
           AddPeriodic success false])).
Proof.
  intros Hflag H1 H2 H3 H4.
  unfold set_firewall_rules. unfold_monad. simp_machine.
  rewrite H1; simp_machine. rewrite H2; simp_machine.
  rewrite Hflag; simp_machine. rewrite H3; simp_machine.
  rewrite H4; simp_machine. rewrite <- !app_assoc. reflexivity.
Qed.

(** *** The supervisor *)

(** X10. [stop()] sets [stopped] before it joins, and joins only a thread
    that exists: whatever the join does, the next test of the loop finds
    the flag, makes no call and leaves the loop. *)
Theorem stop_ends_the_loop (m : Machine W) (protocol : Protocol) (fuel : nat) :
  let m1 := snd (stop m) in
  stopped (self m1) = true /\
  events_since m m1 =
    match server_thread (self m) with
    | Some th => [ThreadJoin th]
    | None => []
    end /\
  monitor_iteration protocol m1 = (Return false, m1) /\
  monitor_loop (S fuel) protocol m1 = (Return (Some tt), m1).
Proof.
  cbv zeta.
  assert (Hstopped : stopped (self (snd (stop m))) = true).
  { unfold stop. unfold_monad. simp_machine. cbn [server_thread set_stopped].
    destruct (server_thread (self m)) as [th|]; simp_machine; [|reflexivity].
    destruct (Thread_join th (world m)) as [[[]|e] w']; reflexivity. }
  assert (Hiter : monitor_iteration protocol (snd (stop m))
                  = (Return false, snd (stop m))).
  { unfold monitor_iteration. unfold_monad. now rewrite Hstopped. }
  split; [exact Hstopped|]. split; [|split; [exact Hiter|]].
  - unfold stop. unfold_monad. simp_machine. cbn [server_thread set_stopped].
    destruct (server_thread (self m)) as [th|]; simp_machine.
    + destruct (Thread_join th (world m)) as [[[]|e] w']; simp_machine;
        now apply events_since_app.
    + apply events_since_app. now rewrite app_nil_r.
  - simpl. unfold bind at 1. now rewrite Hiter.
Qed.

(** X11. After a [start()] that returned, the new thread is stored and
    [is_alive()] no longer fails on a missing thread: it asks that thread. *)
Theorem is_alive_after_start (m : Machine W) (th : Thread) (w1 w2 w3 w4 : W) :
  Thread_new (world m) = (Return th, w1) ->
  Thread_setDaemon th true w1 = (Return tt, w2) ->
  Thread_setName th "EnvHandler" w2 = (Return tt, w3) ->
  Thread_start th w3 = (Return tt, w4) ->
  exists m',
    start m = (Return tt, m') /\
    server_thread (self m') = Some th /\
    events_since m m' =
      [ThreadNew; ThreadSetDaemon th true; ThreadSetName th "EnvHandler";
       ThreadStart th] /\
    is_alive m' = call (ThreadIsAlive th) (Thread_is_alive th) m'.
Proof.
  intros Hnew Hdaemon Hname Hstart.
  unfold start, server_thread_attr. unfold_monad. simp_machine.
  rewrite Hnew;
    simp_machine; cbn [server_thread set_server_thread]; simp_machine.
  rewrite Hdaemon;
    simp_machine; cbn [server_thread set_server_thread]; simp_machine.
  rewrite Hname;
    simp_machine; cbn [server_thread set_server_thread]; simp_machine.
  rewrite Hstart; simp_machine.
  eexists; split; [reflexivity|]. split; [reflexivity|]. split.
  - apply events_since_app. simpl. now rewrite <- !app_assoc.
  - reflexivity.
Qed.

(** X12. [run()] on a handler that is not stopped first logs and performs
    a [stop()], and then goes on as [run()] does on the stopped handler;
    when that [stop()] raises, [run()] raises with it and starts nothing. *)
Theorem run_stops_the_running_monitor (m : Machine W) :
  stopped (self m) = false ->
  run m =
    match stop (mkMachine (self m) (world m)
                  (trace m ++ [LogInfo "Stop existing env monitor service."]))
    with
    | (Return _, m1) => run m1
    | (Raise e, m1) => (Raise e, m1)
    end.
Proof.
  intros Hrunning.
  pose proof (stop_ends_the_loop
                (mkMachine (self m) (world m)
                   (trace m ++ [LogInfo "Stop existing env monitor service."]))
                0%nat 0%nat) as [Hstopped _].
  cbv zeta in Hstopped.
  destruct (stop (mkMachine (self m) (world m)
                    (trace m ++ [LogInfo "Stop existing env monitor service."])))
    as [[[]|e] m1] eqn:Hstop; simpl in Hstopped.
  - unfold run. unfold_monad. simp_machine.
    rewrite Hrunning, Hstopped; simp_machine. rewrite Hstop. reflexivity.
  - unfold run. unfold_monad. simp_machine.
    rewrite Hrunning; simp_machine. rewrite Hstop. reflexivity.
Qed.

(** X13. A hard reset that fails is not counted as done: when
    [remove_firewall] raises, the exception goes out of the reconciler,
    the flag stays unset, so that the next call tries the reset again, and
    the rule is not enabled in this call. *)
Theorem failed_reset_is_not_recorded
    (endpoint : string) (m : Machine W) (e : exn) (w1 w2 w3 : W) :
  has_reset_firewall_rules (self m) = false ->
  remove_rules_files (world m) = (Return tt, w1) ->
  conf_enable_firewall w1 = (Return true, w2) ->
  remove_firewall endpoint (os_getuid w2) w2 = (Raise e, w3) ->
  set_firewall_rules endpoint m =
    (Raise e,
     mkMachine (self m) w3
       (trace m ++
          [RemoveRulesFiles; ConfEnableFirewall;
           RemoveFirewall endpoint (os_getuid w2)])).
Proof.
  intros Hflag H1 H2 H3.
  unfold set_firewall_rules. unfold_monad. simp_machine.
  rewrite H1; simp_machine. rewrite H2; simp_machine.
  rewrite Hflag; simp_machine. rewrite H3; simp_machine.
  rewrite <- !app_assoc. reflexivity.
Qed.

(** X14. The liveness check stops at the first pid reported dead: the
    pids before it were asked, in order, the pids after it are not. *)
Theorem liveness_check_stops_at_first_dead
    (alive : list Z) (dead : Z) (rest : list Z) (m m1 : Machine W) (w2 : W) :
  all_pids_alive alive m = (Return true, m1) ->
  check_pid_alive dead (world m1) = (Return false, w2) ->
  all_pids_alive (alive ++ dead :: rest) m =
    (Return false,
     mkMachine (self m) w2 (trace m ++ map CheckPidAlive (alive ++ [dead]))).
Proof.
  revert m; induction alive as [|pid alive IH]; intros m Halive Hdead.
  - simpl in Halive. unfold ret in Halive. injection Halive as <-.
    simpl. unfold_monad. simp_machine. now rewrite Hdead.
  - simpl in Halive |- *. revert Halive. unfold_monad. simp_machine.
    destruct (check_pid_alive pid (world m)) as [[[|]|e] w']; simp_machine;
      try discriminate.
    intros Halive. rewrite (IH _ Halive Hdead). simpl.
    now rewrite <- app_assoc.
Qed.

End Behaviour.

(** ** Reasoning by weakest preconditions *)

Section WP.
Context {W : Type}.

Lemma wp_ret {A} (a : A) (Q : outcome A -> Machine W -> Prop) m :
  Q (Return a) m -> wp (ret a) Q m.
Proof. exact (fun H => H). Qed.

Lemma wp_raise {A} (e : exn) (Q : outcome A -> Machine W -> Prop) m :
  Q (Raise e) m -> wp (raise e) Q m.
Proof. exact (fun H => H). Qed.

Lemma wp_gets {A} (f : EnvHandler -> A) (Q : outcome A -> Machine W -> Prop) m :
  Q (Return (f (self m))) m -> wp (gets f) Q m.
Proof. exact (fun H => H). Qed.

Lemma wp_peek {A} (f : W -> A) (Q : outcome A -> Machine W -> Prop) m :
  Q (Return (f (world m))) m -> wp (peek f) Q m.
Proof. exact (fun H => H). Qed.

Lemma wp_modify (f : EnvHandler -> EnvHandler)
    (Q : outcome unit -> Machine W -> Prop) m :
  Q (Return tt) (mkMachine (f (self m)) (world m) (trace m)) ->
  wp (modify f) Q m.
Proof. exact (fun H => H). Qed.

Lemma wp_emit (e : event) (Q : outcome unit -> Machine W -> Prop) m :
  Q (Return tt) (mkMachine (self m) (world m) (trace m ++ [e])) ->
  wp (emit e) Q m.
Proof. exact (fun H => H). Qed.

Lemma wp_call {A} (e : event) (f : ext W A)
    (Q : outcome A -> Machine W -> Prop) m :
  (forall r w', f (world m) = (r, w') ->
                Q r (mkMachine (self m) w' (trace m ++ [e]))) ->
  wp (call e f) Q m.
Proof.
  intros H. unfold wp, call.
  destruct (f (world m)) as [r w'] eqn:E. now apply H.
Qed.

Lemma wp_ask {A} (e : event) (f : W -> A * W)
    (Q : outcome A -> Machine W -> Prop) m :
  (forall a w', f (world m) = (a, w') ->
                Q (Return a) (mkMachine (self m) w' (trace m ++ [e]))) ->
  wp (ask e f) Q m.
Proof.
  intros H. unfold wp, ask.
  destruct (f (world m)) as [a w'] eqn:E. now apply H.
Qed.

Lemma wp_bind {A B} (c : M W A) (k : A -> M W B)
    (Q : outcome B -> Machine W -> Prop) m :
  wp c (fun r m' =>
          match r with
          | Return a => wp (k a) Q m'
          | Raise e => Q (Raise e) m'
          end) m ->
  wp (bind c k) Q m.
Proof.
  unfold wp, bind. destruct (c m) as [[a|e] m']; simpl; auto.
Qed.

Lemma wp_try_except {A} (c : M W A) (h : exn -> M W A)
    (Q : outcome A -> Machine W -> Prop) m :
  wp c (fun r m' =>
          match r with
          | Return a => Q (Return a) m'
          | Raise e => wp (h e) Q m'
          end) m ->
  wp (try_except c h) Q m.
Proof.
  unfold wp, try_except. destruct (c m) as [[a|e] m']; simpl; auto.
Qed.

Lemma wp_mono {A} (c : M W A) (Q Q' : outcome A -> Machine W -> Prop) m :
  wp c Q m -> (forall r m', Q r m' -> Q' r m') -> wp c Q' m.
Proof. unfold wp. auto. Qed.

End WP.

(** One step of a computation under [wp]. *)
Ltac wp_step :=
  lazymatch goal with
  | |- wp (bind _ _) _ _ => apply wp_bind
  | |- wp (try_except _ _) _ _ => apply wp_try_except
  | |- wp (ret _) _ _ => apply wp_ret
  | |- wp (raise _) _ _ => apply wp_raise
  | |- wp (gets _) _ _ => apply wp_gets
  | |- wp (peek _) _ _ => apply wp_peek
  | |- wp (modify _) _ _ => apply wp_modify
  | |- wp (emit _) _ _ => apply wp_emit
  | |- wp (call _ _) _ _ => apply wp_call; intros [?|?] ? ?
  | |- wp (ask _ _) _ _ => apply wp_ask; intros ? ? ?
  | |- wp (when _ _) _ _ => unfold when
  | |- wp (if ?b then _ else _) _ _ => destruct b eqn:?
  | |- wp (match ?x with _ => _ end) _ _ => destruct x eqn:?
  end; cbv beta iota.

Ltac split_hyps :=
  repeat match goal with H : _ /\ _ |- _ => destruct H end.

(** A method whose behaviour is known by [lemma], under a precondition
    that [fin] proves. *)
Ltac wp_use lemma fin :=
  eapply wp_mono;
  [eapply lemma; fin
  |let r := fresh "r" in
   let m := fresh "m" in
   let H := fresh "H" in
   intros r m H; destruct r; cbv beta iota in H; split_hyps; cbv beta iota].

(** A whole method: [methods] for the methods it calls, [wp_step] for the
    rest, [fin] at its ends. *)
Ltac wp_walk methods fin :=
  repeat first [methods | wp_step]; try (solve [fin]).

(** ** Invariants of the handler

    A property [I] of the machine is kept by a method, whether it returns
    or raises, as soon as the assignments and the calls of the method keep
    it.  The assignments to [dhcp_id_list] are of values returned by
    [get_dhcp_client_pid], which are [ok]: sorted lists, or the empty
    list.  The calls that touch the firewall are those of
    [set_firewall_rules] and of the migration step of [run]. *)

Section Invariant.
Context {W : Type}.
Context {osutil : OSUtil W} {dhcp_handler : DhcpHandler W}
        {archiver : StateArchiver W} {conf : Conf W}
        {protocol_env : ProtocolEnv W} {stdlib : StdLib W}.
Variable I : Machine W -> Prop.
Variable ok : list Z -> Prop.
Hypothesis ok_sorted : forall l, ok (sorted l).
Hypothesis ok_nil : ok [].
Hypothesis I_event : forall e m w',
  is_firewall_call e = false ->
  I m -> I (mkMachine (self m) w' (trace m ++ [e])).
Hypothesis I_firewall_event : forall e m w',
  is_firewall_call e = true ->
  I m -> I (mkMachine (self m) w' (trace m ++ [e])).
Hypothesis I_protocol_util : forall v m,
  I m -> I (mkMachine (set_protocol_util v (self m)) (world m) (trace m)).
Hypothesis I_stopped : forall v m,
  I m -> I (mkMachine (set_stopped v (self m)) (world m) (trace m)).
Hypothesis I_hostname : forall v m,
  I m -> I (mkMachine (set_hostname_field (Some v) (self m)) (world m) (trace m)).
Hypothesis I_dhcp_id_list : forall v m,
  ok v ->
  I m -> I (mkMachine (set_dhcp_id_list v (self m)) (world m) (trace m)).
Hypothesis I_server_thread : forall v m,
  I m -> I (mkMachine (set_server_thread (Some v) (self m)) (world m) (trace m)).
Hypothesis I_warning : forall v m,
  I m -> I (mkMachine (set_dhcp_warning_enabled v (self m)) (world m) (trace m)).
Hypothesis I_has_reset : forall m,
  I m ->
  I (mkMachine (set_has_reset_firewall_rules true (self m)) (world m) (trace m)).
Hypothesis I_reconcile : forall endpoint, kept I (set_firewall_rules endpoint).
Hypothesis I_run : kept I run.

Ltac fin :=
  split_hyps;
  repeat first
    [assumption
    |apply I_event; [reflexivity|]
    |apply I_firewall_event; [reflexivity|]
    |apply I_protocol_util
    |apply I_stopped
    |apply I_hostname
    |apply I_dhcp_id_list; [solve [auto]|]
    |apply I_server_thread
    |apply I_warning
    |apply I_has_reset].

Ltac keep lemma := idtac; wp_use lemma fin.

Lemma kept_server_thread_attr attr : kept I (server_thread_attr attr).
Proof. intros m HI. unfold server_thread_attr. wp_walk fail fin. Qed.

Lemma kept_is_alive : kept I is_alive.
Proof.
  intros m HI. unfold is_alive.
  wp_walk ltac:(keep kept_server_thread_attr) fin.
Qed.

Lemma kept_start : kept I start.
Proof.
  intros m HI. unfold start.
  wp_walk ltac:(keep kept_server_thread_attr) fin.
Qed.

Lemma kept_stop : kept I stop.
Proof. intros m HI. unfold stop. wp_walk fail fin. Qed.

Lemma kept_handle_hostname_update : kept I handle_hostname_update.
Proof. intros m HI. unfold handle_hostname_update. wp_walk fail fin. Qed.

(** The query keeps [I] and returns an [ok] list. *)
Lemma kept_query (m : Machine W) :
  I m ->
  wp get_dhcp_client_pid
     (fun r m' =>
        I m' /\ match r with Return pid => ok pid | Raise _ => True end) m.
Proof.
  intros HI. unfold get_dhcp_client_pid.
  wp_walk fail ltac:(try split; fin; auto).
Qed.

Lemma kept_get_dhcp_client_pid : kept I get_dhcp_client_pid.
Proof.
  intros m HI. eapply wp_mono; [apply kept_query, HI|]. now intros r m' [H _].
Qed.

Lemma kept_all_pids_alive pids : kept I (all_pids_alive pids).
Proof.
  induction pids as [|pid rest IH]; intros m HI; simpl.
  - wp_step. exact HI.
  - wp_walk ltac:(keep IH) fin.
Qed.

Lemma kept_handle_dhclient_restart : kept I handle_dhclient_restart.
Proof.
  intros m HI. unfold handle_dhclient_restart.
  wp_walk ltac:(first [keep kept_query | keep kept_all_pids_alive]) fin.
Qed.

Lemma kept_archive_history : kept I archive_history.
Proof.
  intros m HI. unfold archive_history, before_next_archive. wp_walk fail fin.
Qed.

Lemma kept_monitor_body protocol : kept I (monitor_body protocol).
Proof.
  intros m HI. unfold monitor_body.
  wp_walk ltac:(first [keep I_reconcile
                      |keep kept_handle_hostname_update
                      |keep kept_handle_dhclient_restart
                      |keep kept_archive_history]) fin.
Qed.

Lemma kept_monitor_begin : kept I monitor_begin.
Proof. intros m HI. unfold monitor_begin. wp_walk fail fin. Qed.

Lemma kept_monitor_iteration protocol : kept I (monitor_iteration protocol).
Proof.
  intros m HI. unfold monitor_iteration.
  wp_walk ltac:(keep kept_monitor_body) fin.
Qed.

Lemma kept_monitor_loop fuel protocol : kept I (monitor_loop fuel protocol).
Proof.
  induction fuel as [|fuel IH]; intros m HI; simpl.
  - wp_step. exact HI.
  - wp_walk ltac:(first [keep kept_monitor_iteration | keep IH]) fin.
Qed.

Lemma kept_monitor fuel : kept I (monitor fuel).
Proof.
  intros m HI. unfold monitor.
  wp_walk ltac:(first [keep kept_monitor_begin | keep kept_monitor_loop]) fin.
Qed.

Lemma kept_perform o : kept I (perform o).
Proof.
  intros m HI. destruct o; simpl;
    wp_walk ltac:(first [keep I_run
                        |keep kept_stop
                        |keep kept_is_alive
                        |keep kept_start
                        |keep I_reconcile
                        |keep kept_handle_hostname_update
                        |keep kept_get_dhcp_client_pid
                        |keep kept_handle_dhclient_restart
                        |keep kept_archive_history
                        |keep kept_monitor
                        |keep kept_monitor_begin
                        |keep kept_monitor_iteration]) fin.
Qed.

Lemma kept_perform_all ops (m : Machine W) : I m -> I (perform_all ops m).
Proof.
  revert m; induction ops as [|o rest IH]; intros m HI; simpl; [exact HI|].
  apply IH. exact (kept_perform o m HI).
Qed.

(** [set_firewall_rules] and [run], for an [I] that their calls keep. *)
Lemma kept_set_firewall_rules endpoint : kept I (set_firewall_rules endpoint).
Proof. intros m HI. unfold set_firewall_rules. wp_walk fail fin. Qed.

Lemma kept_run : kept I run.
Proof.
  intros m HI. unfold run.
  wp_walk ltac:(first [keep kept_stop
                      |keep kept_query
                      |keep I_reconcile
                      |keep kept_start]) fin.
Qed.

End Invariant.

(** The same for a property [J] of the fields alone. *)

Section FieldInvariant.
Context {W : Type}.
Context {osutil : OSUtil W} {dhcp_handler : DhcpHandler W}
        {archiver : StateArchiver W} {conf : Conf W}
        {protocol_env : ProtocolEnv W} {stdlib : StdLib W}.
Variable J : EnvHandler -> Prop.
Variable ok : list Z -> Prop.
Hypothesis ok_sorted : forall l, ok (sorted l).
Hypothesis ok_nil : ok [].
Hypothesis J_protocol_util : forall v s, J s -> J (set_protocol_util v s).
Hypothesis J_stopped : forall v s, J s -> J (set_stopped v s).
Hypothesis J_hostname : forall v s, J s -> J (set_hostname_field (Some v) s).
Hypothesis J_dhcp_id_list : forall v s, ok v -> J s -> J (set_dhcp_id_list v s).
Hypothesis J_server_thread : forall v s, J s -> J (set_server_thread (Some v) s).
Hypothesis J_warning : forall v s, J s -> J (set_dhcp_warning_enabled v s).
Hypothesis J_has_reset : forall s, J s -> J (set_has_reset_firewall_rules true s).

Lemma fields_kept_set_firewall_rules endpoint :
  kept (fun m : Machine W => J (self m)) (set_firewall_rules endpoint).
Proof.
  apply (kept_set_firewall_rules (fun m : Machine W => J (self m)));
    simpl; auto.
Qed.

Lemma fields_kept_monitor_body protocol :
  kept (fun m : Machine W => J (self m)) (monitor_body protocol).
Proof.
  apply (kept_monitor_body (fun m : Machine W => J (self m)) ok);
    simpl; auto using fields_kept_set_firewall_rules.
Qed.

Lemma fields_kept_run : kept (fun m : Machine W => J (self m)) run.
Proof.
  apply (kept_run (fun m : Machine W => J (self m)) ok);
    simpl; auto using fields_kept_set_firewall_rules.
Qed.

Lemma fields_kept_perform_all ops (m : Machine W) :
  J (self m) -> J (self (perform_all ops m)).
Proof.
  apply (kept_perform_all (fun m : Machine W => J (self m)) ok);
    simpl; auto using fields_kept_set_firewall_rules, fields_kept_run.
Qed.

End FieldInvariant.

(** ** What the handler keeps *)

Section Kept.
Context {W : Type}.
Context {osutil : OSUtil W} {dhcp_handler : DhcpHandler W}
        {archiver : StateArchiver W} {conf : Conf W}
        {protocol_env : ProtocolEnv W} {stdlib : StdLib W}.

(** X15. The stored pids are kept in ascending order: they are so on a
    handler as constructed, and every operation that finds them so leaves
    them so, whether it returns or raises. *)
Theorem stored_pids_stay_ascending (ops : list operation) :
  (forall m : Machine W,
      ascending (dhcp_id_list (self m)) ->
      ascending (dhcp_id_list (self (perform_all ops m)))) /\
  (forall (w : W) (t : list event),
      ascending
        (dhcp_id_list (self (perform_all ops (mkMachine EnvHandler_init w t))))).
Proof.
  assert (H : forall m : Machine W,
             ascending (dhcp_id_list (self m)) ->
             ascending (dhcp_id_list (self (perform_all ops m)))).
  { intros m.
    apply (fields_kept_perform_all
             (fun s => ascending (dhcp_id_list s)) ascending);
      simpl; auto using sorted_ascending. }
  split; [exact H|]. intros w t. apply H. exact I.
Qed.

(** X16. The body of the loop never assigns [stopped]: a loop entered with
    the flag unset does not leave by itself.  It goes on until an iteration
    raises; with the fuel it is given here, it ends in an exception or with
    the fuel, never with the answer that the loop was left. *)
Theorem loop_does_not_leave_by_itself
    (fuel : nat) (protocol : Protocol) (m : Machine W) :
  stopped (self m) = false ->
  stopped (self (snd (monitor_loop fuel protocol m))) = false /\
  forall left : unit, fst (monitor_loop fuel protocol m) <> Return (Some left).
Proof.
  assert (Hbody : forall m : Machine W,
             stopped (self m) = false ->
             stopped (self (snd (monitor_body protocol m))) = false).
  { intros m0.
    apply (fields_kept_monitor_body (fun s => stopped s = false) (fun _ => True));
      simpl; auto. }
  revert m; induction fuel as [|fuel IH]; intros m Hrunning.
  - simpl. split; [exact Hrunning|discriminate].
  - simpl. unfold monitor_iteration. unfold_monad. rewrite Hrunning.
    specialize (Hbody m Hrunning).
    destruct (monitor_body protocol m) as [[[]|e] m1]; simpl in *.
    + apply IH, Hbody.
    + split; [exact Hbody|discriminate].
Qed.

(** X17. On a handler as constructed the archive gate never closes:
    [last_archive] is [None] after any operations, so every call of
    [archive_history] calls [purge], and [archive] when [purge] returned,
    without reading the clock. *)
Theorem archive_gate_never_closes
    (ops : list operation) (w : W) (t : list event) :
  let m := perform_all ops (mkMachine EnvHandler_init w t) in
  events_since m (snd (archive_history m)) =
    match fst (purge (world m)) with
    | Return _ => [Purge; Archive]
    | Raise _ => [Purge]
    end.
Proof.
  intros m.
  assert (Hnone : last_archive (self m) = None).
  { unfold m.
    apply (fields_kept_perform_all
             (fun s => last_archive s = None) (fun _ => True));
      simpl; auto. }
  unfold archive_history. unfold_monad. simp_machine. rewrite Hnone.
  simp_machine.
  destruct (purge (world m)) as [[[]|e] w1]; simp_machine.
  - destruct (archive w1) as [[[]|e] w2]; simp_machine;
      apply events_since_app; now rewrite <- app_assoc.
  - now apply events_since_app.
Qed.

(** What [run()] has assigned by the time it hands over to [start()]. *)
Lemma armed_kept_by_query (m : Machine W) :
  bootstrapped (self m) ->
  wp get_dhcp_client_pid
     (fun r m' =>
        bootstrapped (self m') /\
        match r with Return pid => ascending pid | Raise _ => True end) m.
Proof.
  apply (kept_query (fun m : Machine W => bootstrapped (self m)) ascending);
    unfold bootstrapped; simpl; auto using sorted_ascending.
Qed.

Lemma armed_kept_by_reconciler endpoint :
  kept (fun m : Machine W =>
          bootstrapped (self m) /\ ascending (dhcp_id_list (self m)))
       (set_firewall_rules endpoint).
Proof.
  apply (fields_kept_set_firewall_rules
           (fun s => bootstrapped s /\ ascending (dhcp_id_list s)));
    unfold bootstrapped; simpl; auto.
Qed.

Lemma started_after_start (m : Machine W) :
  bootstrapped (self m) /\ ascending (dhcp_id_list (self m)) ->
  wp start
     (fun r m' =>
        r = Return tt ->
        (bootstrapped (self m') /\ ascending (dhcp_id_list (self m'))) /\
        server_thread (self m') <> None) m.
Proof.
  intros HI. unfold start, server_thread_attr.
  wp_walk fail ltac:(first [intro; discriminate
                          |intros _; unfold bootstrapped in *; simpl in *;
                           split; [tauto|congruence]]).
Qed.

Lemma wp_trivial {A} (c : M W A) (m : Machine W) : wp c (fun _ _ => True) m.
Proof. exact I. Qed.

(** X18. A [run()] that returns has armed the handler: [stopped] is unset,
    a hostname is cached, the pids stored are in ascending order, and a
    thread is stored, so that [is_alive()] has a thread to ask. *)
Theorem run_arms_the_handler (m : Machine W) :
  fst (run m) = Return tt ->
  stopped (self (snd (run m))) = false /\
  hostname (self (snd (run m))) <> None /\
  ascending (dhcp_id_list (self (snd (run m)))) /\
  server_thread (self (snd (run m))) <> None.
Proof.
  assert (H : wp run
                (fun r m' =>
                   r = Return tt ->
                   (bootstrapped (self m') /\
                    ascending (dhcp_id_list (self m'))) /\
                   server_thread (self m') <> None) m).
  { unfold run.
    wp_walk
      ltac:(idtac;
            lazymatch goal with
            | |- wp stop _ _ =>
                wp_use (@wp_trivial unit stop) idtac
            | |- wp get_dhcp_client_pid _ _ =>
                wp_use armed_kept_by_query
                  ltac:(unfold bootstrapped; simpl; split; congruence)
            | |- wp (set_firewall_rules _) _ _ =>
                wp_use armed_kept_by_reconciler
                  ltac:(unfold bootstrapped in *; simpl in *; tauto)
            | |- wp start _ _ =>
                wp_use started_after_start
                  ltac:(unfold bootstrapped in *; simpl in *; tauto)
            end)
      ltac:(first [intro; discriminate | tauto | assumption]). }
  intros Hret. unfold wp in H. destruct (H Hret) as [[[Hs Hh] Ha] Ht].
  auto.
Qed.

(** X19. [run()] on a stopped handler unsets [stopped] before anything
    that can fail: whether it returns or raises, the handler is left with
    [stopped] unset, also when no thread was started. *)
Theorem run_unsets_stopped (m : Machine W) :
  stopped (self m) = true ->
  stopped (self (snd (run m))) = false.
Proof.
  intros Hstopped.
  change (wp run (fun _ m' => stopped (self m') = false) m).
  unfold run. wp_step. wp_step. rewrite Hstopped. simpl negb.
  wp_step. wp_step. wp_step. wp_step. wp_step.
  wp_walk
    ltac:(idtac;
          lazymatch goal with
          | |- wp get_dhcp_client_pid _ _ =>
              wp_use (kept_query (fun m : Machine W => stopped (self m) = false)
                        (fun _ => True))
                ltac:(simpl; auto)
          | |- wp (set_firewall_rules _) _ _ =>
              wp_use (fields_kept_set_firewall_rules
                        (fun s => stopped s = false))
                ltac:(simpl; auto)
          | |- wp start _ _ =>
              wp_use (kept_start (fun m : Machine W => stopped (self m) = false))
                ltac:(simpl; auto)
          end)
    ltac:(simpl in *; auto).
Qed.

End Kept.

(** *** With the firewall disabled *)

Section FirewallOff.
Context {W : Type}.
Context {osutil : OSUtil W} {dhcp_handler : DhcpHandler W}
        {archiver : StateArchiver W} {conf : Conf W}
        {protocol_env : ProtocolEnv W} {stdlib : StdLib W}.
Hypothesis firewall_off : forall w : W, fst (conf_enable_firewall w) = Return false.
Variable t0 : list event.
Variable b0 : bool.

Lemma untouched_event (e : event) (m : Machine W) (w' : W) :
  is_firewall_call e = false ->
  firewall_untouched t0 b0 m ->
  firewall_untouched t0 b0 (mkMachine (self m) w' (trace m ++ [e])).
Proof.
  intros He [Hflag [evs [T F]]]. split; [exact Hflag|].
  exists (evs ++ [e]). simpl. split; [now rewrite T, app_assoc|].
  unfold firewall_calls in *. rewrite filter_app, F. simpl. now rewrite He.
Qed.

Lemma untouched_fields (f : EnvHandler -> EnvHandler) (m : Machine W) :
  (forall s, has_reset_firewall_rules (f s) = has_reset_firewall_rules s) ->
  firewall_untouched t0 b0 m ->
  firewall_untouched t0 b0 (mkMachine (f (self m)) (world m) (trace m)).
Proof.
  intros Hf [Hflag Hevs]. split; [simpl; now rewrite Hf|exact Hevs].
Qed.

(** The configuration never answers that the firewall is enabled. *)
Ltac off_absurd :=
  match goal with
  | H : conf_enable_firewall ?w = (Return true, _) |- _ =>
      pose proof (firewall_off w) as Hoff; rewrite H in Hoff; discriminate Hoff
  end.

Ltac fin_off :=
  first
    [off_absurd
    |split_hyps;
     repeat first
       [assumption
       |apply untouched_event; [reflexivity|]
       |apply untouched_fields; [reflexivity|]]].

Lemma untouched_by_reconciler endpoint :
  kept (firewall_untouched t0 b0) (set_firewall_rules endpoint).
Proof.
  intros m HI. unfold set_firewall_rules.
  wp_walk
    ltac:(idtac;
          lazymatch goal with
          | H : conf_enable_firewall _ = (Return true, _) |- _ => off_absurd
          end)
    fin_off.
Qed.

Lemma untouched_by_stop : kept (firewall_untouched t0 b0) stop.
Proof.
  apply (kept_stop (firewall_untouched t0 b0));
    intros; first [now apply untouched_event | now apply untouched_fields].
Qed.

Lemma untouched_by_start : kept (firewall_untouched t0 b0) start.
Proof.
  apply (kept_start (firewall_untouched t0 b0));
    intros; first [now apply untouched_event | now apply untouched_fields].
Qed.

Lemma untouched_by_query :
  kept (firewall_untouched t0 b0) get_dhcp_client_pid.
Proof.
  apply (kept_get_dhcp_client_pid (firewall_untouched t0 b0) (fun _ => True));
    intros; first [exact I | now apply untouched_event
                  |now apply untouched_fields].
Qed.

Lemma untouched_by_run : kept (firewall_untouched t0 b0) run.
Proof.
  intros m HI. unfold run.
  wp_walk
    ltac:(idtac;
          lazymatch goal with
          | |- wp stop _ _ => wp_use untouched_by_stop fin_off
          | |- wp get_dhcp_client_pid _ _ => wp_use untouched_by_query fin_off
          | |- wp (set_firewall_rules _) _ _ =>
              wp_use untouched_by_reconciler fin_off
          | |- wp start _ _ => wp_use untouched_by_start fin_off
          | H : conf_enable_firewall _ = (Return true, _) |- _ => off_absurd
          end)
    fin_off.
Qed.

Lemma untouched_by_operations (ops : list operation) (m : Machine W) :
  firewall_untouched t0 b0 m -> firewall_untouched t0 b0 (perform_all ops m).
Proof.
  apply (kept_perform_all (firewall_untouched t0 b0) (fun _ => True));
    intros;
    first [exact I
          |now apply untouched_event
          |now apply untouched_fields
          |apply untouched_by_reconciler
          |apply untouched_by_run].
Qed.

End FirewallOff.

Section FirewallOffLifetime.
Context {W : Type}.
Context {osutil : OSUtil W} {dhcp_handler : DhcpHandler W}
        {archiver : StateArchiver W} {conf : Conf W}
        {protocol_env : ProtocolEnv W} {stdlib : StdLib W}.

(** X20. While the configuration answers that the firewall is disabled,
    no operation, [run()] and its migration step included, calls
    [remove_firewall], [enable_firewall] or the firewall telemetry, and
    [has_reset_firewall_rules] is left as it is: the one-time reset is
    not used up. *)
Theorem disabled_firewall_is_left_alone (ops : list operation) (m : Machine W) :
  (forall w : W, fst (conf_enable_firewall w) = Return false) ->
  firewall_calls (events_since m (perform_all ops m)) = [] /\
  has_reset_firewall_rules (self (perform_all ops m))
    = has_reset_firewall_rules (self m).
Proof.
  intros Hoff.
  destruct (untouched_by_operations Hoff (trace m)
              (has_reset_firewall_rules (self m)) ops m)
    as [Hflag [evs [T F]]].
  { split; [reflexivity|]. exists []. now rewrite app_nil_r. }
  split; [|exact Hflag].
  now rewrite (events_since_app m (perform_all ops m) evs T).
Qed.

End FirewallOffLifetime.

(** ** The properties on scripted worlds *)

Import Scripted.

(** C1, as the spec has it, fails: the client of pid 101 is dead and the
    refetch is empty; the tick leaves [101] stored, not the empty list, and
    the next tick asks again whether 101 is alive, which the bootstrap path
    never does. *)
Lemma empty_refetch_not_stored :
  let m := dead_client in
  let m1 := snd (all_pids_alive (dhcp_id_list (self m)) m) in
  let after := snd (handle_dhclient_restart m) in
  dhcp_id_list (self m) = [101] /\
  all_pids_alive (dhcp_id_list (self m)) m = (Return false, m1) /\
  fst (get_dhcp_client_pid m1) = Return [] /\
  dhcp_id_list (self after) = [101] /\
  dhcp_id_list (self after) <> [] /\
  events_since after (snd (handle_dhclient_restart after))
    = [CheckPidAlive 101; GetDhcpPid].
Proof.
  cbv zeta. repeat split; try reflexivity. discriminate.
Qed.

(** A new client is stored; no client keeps the old one stored. *)
Lemma dhclient_restart_stores_nonempty_refetch_witness :
  (let m := restarted_client in
   fst (handle_dhclient_restart m) = Return tt /\
   dhcp_id_list (self (snd (handle_dhclient_restart m))) = [309]) /\
  (let m := dead_client in
   dhcp_id_list (self (snd (handle_dhclient_restart m))) = [101]).
Proof.
  split.
  - cbv zeta.
    set (m1 := snd (all_pids_alive [101] restarted_client)).
    set (m2 := snd (get_dhcp_client_pid m1)).
    refine (proj1 (dhclient_restart_stores_nonempty_refetch
                     restarted_client m1 m2 [309] _ _ _) _ _).
    + discriminate.
    + reflexivity.
    + reflexivity.
    + discriminate.
    + intros _. exists (world m2). reflexivity.
  - cbv zeta.
    set (m1 := snd (all_pids_alive [101] dead_client)).
    set (m2 := snd (get_dhcp_client_pid m1)).
    destruct (proj2 (dhclient_restart_stores_nonempty_refetch
                       dead_client m1 m2 []
                       ltac:(discriminate) eq_refl eq_refl) eq_refl)
      as [E [Hkept _]].
    rewrite E. exact Hkept.
Defined.


(** [run()], then [stop()] and [run()] again. *)
Lemma has_reset_firewall_rules_never_cleared_witness :
  let m := boot EnvHandler_init quiet in
  has_reset_firewall_rules (self (perform_all [CallRun] m)) = true /\
  has_reset_firewall_rules
    (self (perform_all ([CallRun] ++ [CallStop; CallRun]) m)) = true.
Proof.
  cbv zeta. split; [reflexivity|].
  apply (has_reset_firewall_rules_never_cleared (boot EnvHandler_init quiet)
           [CallRun] [CallStop; CallRun]).
  reflexivity.
Defined.

(** [is_alive()] right after construction. *)
Lemma is_alive_before_start_witness :
  let m := boot EnvHandler_init quiet in
  server_thread (self m) = None /\
  is_alive m =
    (Raise (AttributeError "'NoneType' object has no attribute 'is_alive'"), m)
  /\ forall answer : bool, fst (is_alive m) <> Return answer.
Proof.
  cbv zeta. split; [reflexivity|].
  apply (is_alive_before_start (boot EnvHandler_init quiet)). reflexivity.
Defined.

(** A client of pid 309 is found by the first query, which is silent and
    sets the flag; after an [archive_history()] and a [stop()] the next
    query finds none and warns; the one after that is silent. *)
Lemma dhcp_warning_only_on_transition_witness :
  let m := client_then_none in
  exists m',
    get_dhcp_client_pid m = (Return [309], m') /\
    dhcp_warnings (events_since m m') = [] /\
    dhcp_warning_enabled (self m') = true /\
    (let m'' := perform_all [CallArchiveHistory; CallStop] m' in
     dhcp_warnings (events_since m'' (snd (get_dhcp_client_pid m'')))
       = [dhcp_not_running]) /\
    (let m1 := snd (get_dhcp_client_pid m') in
     dhcp_warnings (events_since m1 (snd (get_dhcp_client_pid m1))) = []).
Proof.
  cbv zeta.
  destruct (proj2 dhcp_warning_only_on_transition client_then_none)
    as [pid [m' [E [Hpid [_ [Hworld [_ [Hwarned [_ [Harmed Hnext]]]]]]]]]].
  simpl in Hpid. subst pid. exists m'.
  split; [exact E|]. split; [exact Hwarned|]. split; [exact Harmed|].
  split.
  - pose proof (proj1 (Hnext [CallArchiveHistory; CallStop] eq_refl)) as H.
    cbv zeta in H. rewrite H.
    pose proof (E' := f_equal snd E). simpl in E'. rewrite <- E'.
    reflexivity.
  - destruct (proj2 dhcp_warning_only_on_transition m')
      as [pid1 [m1 [E1 [Hpid1 [_ [_ [_ [_ [_ [_ Hnext1]]]]]]]]]].
    rewrite Hworld in Hpid1. simpl in Hpid1. subst pid1.
    rewrite E1. simpl snd.
    exact (proj1 (Hnext1 [] eq_refl)).
Defined.

(** The first query on a host where [pidof] is missing. *)
Lemma get_dhcp_client_pid_catches_witness :
  let m := failing_query in
  get_dhcp_pid (world m) = (Raise pidof_failure, quiet) /\
  exists m',
    get_dhcp_client_pid m = (Return [], m') /\
    events_since m m' = [GetDhcpPid; dhcp_fetch_failed pidof_failure] /\
    self m' = set_dhcp_warning_enabled false (self m) /\
    world m' = quiet.
Proof.
  cbv zeta. split; [reflexivity|].
  apply (get_dhcp_client_pid_catches failing_query pidof_failure quiet).
  reflexivity.
Defined.




(** ** The further properties on scripted worlds *)

(** Two stored clients, both alive. *)
Lemma all_alive_is_no_restart_witness :
  let m := two_clients in
  let m1 := snd (all_pids_alive [101; 205] m) in
  handle_dhclient_restart m = (Return tt, m1) /\
  self m1 = self m /\
  events_since m m1 = [CheckPidAlive 101; CheckPidAlive 205].
Proof.
  cbv zeta.
  exact (all_alive_is_no_restart two_clients
           (snd (all_pids_alive [101; 205] two_clients))
           ltac:(discriminate) eq_refl).
Defined.

(** Clients appear on a handler that stored none: no route is touched. *)
Lemma bootstrap_stores_without_restart_witness :
  let m := clients_appear in
  exists pid m1 log,
    get_dhcp_client_pid m = (Return pid, m1) /\
    handle_dhclient_restart m =
      (Return tt,
       mkMachine (set_dhcp_id_list pid (self m1)) (world m1) (trace m1)) /\
    trace m1 = trace m ++ GetDhcpPid :: log /\
    forallb is_log_line log = true.
Proof.
  cbv zeta. exact (bootstrap_stores_without_restart clients_appear eq_refl).
Defined.

(** The answer [309; 205] comes back sorted. *)
Lemma query_returns_sorted_pids_witness :
  exists pid m',
    get_dhcp_client_pid clients_appear = (Return pid, m') /\
    ascending pid /\
    Permutation [309; 205] pid.
Proof.
  exact (query_returns_sorted_pids clients_appear [309; 205] quiet eq_refl).
Defined.

(** [205; 101] refetched against [101; 205] stored. *)
Lemma same_pids_in_any_order_is_no_restart_witness :
  let m := same_clients_listed in
  let m1 := snd (all_pids_alive [101; 205] m) in
  exists m2,
    handle_dhclient_restart m = (Return tt, m2) /\
    dhcp_id_list (self m2) = [101; 205] /\
    events_since m1 m2 = [GetDhcpPid].
Proof.
  cbv zeta.
  refine (same_pids_in_any_order_is_no_restart same_clients_listed
            (snd (all_pids_alive [101; 205] same_clients_listed))
            [205; 101] (mkHost [] [101] "host-a" 0 true false 0)
            ltac:(discriminate) _ eq_refl eq_refl _).
  - simpl. repeat split; intros y Hy; simpl in Hy;
      repeat (destruct Hy as [<-|Hy]; [lia|]); destruct Hy.
  - simpl. apply perm_swap.
Defined.

(** The query fails while the dead client is being checked. *)
Lemma failed_refetch_keeps_pids_witness :
  let m := dead_client_failing_query in
  let m1 := snd (all_pids_alive [101] m) in
  exists m2,
    handle_dhclient_restart m = (Return tt, m2) /\
    dhcp_id_list (self m2) = [101] /\
    world m2 = mkHost [] [101] "host-a" 0 true false 0 /\
    conf_routes_calls (events_since m1 m2) = [].
Proof.
  cbv zeta.
  exact (failed_refetch_keeps_pids dead_client_failing_query
           (snd (all_pids_alive [101] dead_client_failing_query))
           pidof_failure (mkHost [] [101] "host-a" 0 true false 0)
           ltac:(discriminate) eq_refl eq_refl).
Defined.


(** The host renamed to "host-b", where first the name cannot be set, then
    cannot be published. *)
Lemma hostname_failure_keeps_cache_witness :
  let m := named "host-b" in
  fst (handle_hostname_update (osutil := hostname_not_settable) m)
    = Raise refused /\
  self (snd (handle_hostname_update (osutil := hostname_not_settable) m))
    = self m /\
  fst (handle_hostname_update (osutil := hostname_not_publishable) m)
    = Raise refused /\
  self (snd (handle_hostname_update (osutil := hostname_not_publishable) m))
    = self m.
Proof.
  cbv zeta.
  pose proof (proj1 (hostname_failure_keeps_cache
                       (osutil := hostname_not_settable)
                       (named "host-b") "host-b" (world (named "host-b"))
                       eq_refl eq_refl)
                refused (world (named "host-b")) eq_refl) as Hset.
  pose proof (proj2 (hostname_failure_keeps_cache
                       (osutil := hostname_not_publishable)
                       (named "host-b") "host-b" (world (named "host-b"))
                       eq_refl eq_refl)
                refused (world (named "host-b")) (world (named "host-b"))
                eq_refl eq_refl) as Hpublish.
  rewrite Hset, Hpublish. repeat split.
Defined.

(** The host renamed to "host-b": one update, then quiet. *)
Lemma hostname_update_settles_witness :
  let m := named "host-b" in
  exists m1,
    handle_hostname_update m = (Return tt, m1) /\
    hostname (self m1) = Some "host-b"%string /\
    handle_hostname_update m1 =
      (Return tt,
       mkMachine (self m1) (world m) (trace m1 ++ [SocketGethostname])).
Proof.
  cbv zeta.
  exact (hostname_update_settles (named "host-b") "host-b"
           (world (named "host-b")) (world (named "host-b"))
           (world (named "host-b")) (world (named "host-b"))
           eq_refl eq_refl eq_refl eq_refl eq_refl).
Defined.

(** A call of the reconciler past the reset. *)
Lemma firewall_outcome_reported_witness :
  set_firewall_rules "168.63.129.16" reset_done =
    (Return tt,
     mkMachine (self reset_done) quiet
       [RemoveRulesFiles; ConfEnableFirewall;
        EnableFirewall "168.63.129.16" 0; AddPeriodic true false]).
Proof.
  exact (firewall_outcome_reported "168.63.129.16" reset_done true
           quiet quiet quiet quiet eq_refl eq_refl eq_refl eq_refl eq_refl).
Defined.

(** [start()] and [is_alive()] right after construction. *)
Lemma is_alive_after_start_witness :
  let m := boot EnvHandler_init quiet in
  exists m',
    start m = (Return tt, m') /\
    server_thread (self m') = Some 0%nat /\
    events_since m m' =
      [ThreadNew; ThreadSetDaemon 0%nat true;
       ThreadSetName 0%nat "EnvHandler"; ThreadStart 0%nat] /\
    is_alive m' = call (ThreadIsAlive 0%nat) (Thread_is_alive 0%nat) m'.
Proof.
  cbv zeta.
  set (w := mkHost [] [] "host-a" 0 true false 1).
  exact (is_alive_after_start (boot EnvHandler_init quiet) 0%nat w w w w
           eq_refl eq_refl eq_refl eq_refl).
Defined.

(** A second [run()] on a running handler. *)
Lemma run_stops_the_running_monitor_witness :
  let m := snd (run (boot EnvHandler_init quiet)) in
  stopped (self m) = false /\
  run m =
    match stop (mkMachine (self m) (world m)
                  (trace m ++ [LogInfo "Stop existing env monitor service."]))
    with
    | (Return _, m1) => run m1
    | (Raise e, m1) => (Raise e, m1)
    end.
Proof.
  cbv zeta. split; [reflexivity|].
  exact (run_stops_the_running_monitor
           (snd (run (boot EnvHandler_init quiet))) eq_refl).
Defined.

(** Clients appear during a [run()] and two iterations of the loop. *)
Lemma stored_pids_stay_ascending_witness :
  ascending
    (dhcp_id_list
       (self (perform_all [CallRun; MonitorIteration 0%nat; MonitorIteration 0%nat]
                clients_appear))).
Proof.
  exact (proj1 (stored_pids_stay_ascending
                  [CallRun; MonitorIteration 0%nat; MonitorIteration 0%nat])
           clients_appear I).
Defined.

(** Three iterations after a [run()]. *)
Lemma loop_does_not_leave_by_itself_witness :
  let m := snd (run (boot EnvHandler_init quiet)) in
  stopped (self (snd (monitor_loop 3 0%nat m))) = false /\
  forall left : unit, fst (monitor_loop 3 0%nat m) <> Return (Some left).
Proof.
  cbv zeta.
  exact (loop_does_not_leave_by_itself 3 0%nat
           (snd (run (boot EnvHandler_init quiet))) eq_refl).
Defined.

(** [run()] right after construction. *)
Lemma run_arms_the_handler_witness :
  let m := boot EnvHandler_init quiet in
  stopped (self (snd (run m))) = false /\
  hostname (self (snd (run m))) <> None /\
  ascending (dhcp_id_list (self (snd (run m)))) /\
  server_thread (self (snd (run m))) <> None.
Proof.
  cbv zeta. exact (run_arms_the_handler (boot EnvHandler_init quiet) eq_refl).
Defined.

(** A [run()], an iteration and a direct call of the reconciler, with the
    firewall disabled. *)
Lemma disabled_firewall_is_left_alone_witness :
  let m := boot EnvHandler_init quiet in
  let ops := [CallRun; MonitorIteration 0%nat;
              CallSetFirewallRules "168.63.129.16"] in
  firewall_calls
    (events_since m (perform_all (conf := conf_off) ops m)) = [] /\
  has_reset_firewall_rules (self (perform_all (conf := conf_off) ops m))
    = false.
Proof.
  cbv zeta.
  exact (disabled_firewall_is_left_alone (conf := conf_off)
           [CallRun; MonitorIteration 0%nat;
            CallSetFirewallRules "168.63.129.16"]
           (boot EnvHandler_init quiet) (fun _ => eq_refl)).
Defined.

(** [run()] right after construction leaves [stopped] unset. *)
Lemma run_unsets_stopped_witness :
  stopped (self (boot EnvHandler_init quiet)) = true /\
  stopped (self (snd (run (boot EnvHandler_init quiet)))) = false.
Proof.
  split; [reflexivity|].
  exact (run_unsets_stopped (boot EnvHandler_init quiet) eq_refl).
Defined.

(** The first call of the reconciler on a host where the rule cannot be
    removed. *)
Lemma failed_reset_is_not_recorded_witness :
  let m := boot EnvHandler_init quiet in
  set_firewall_rules (osutil := rule_not_removable) "168.63.129.16" m =
    (Raise refused,
     mkMachine (self m) quiet
       [RemoveRulesFiles; ConfEnableFirewall;
        RemoveFirewall "168.63.129.16" 0]).
Proof.
  cbv zeta.
  exact (failed_reset_is_not_recorded (osutil := rule_not_removable)
           "168.63.129.16" (boot EnvHandler_init quiet) refused
           quiet quiet quiet eq_refl eq_refl eq_refl eq_refl).
Defined.

(** 205 is dead: 309 is not asked about. *)
Lemma liveness_check_stops_at_first_dead_witness :
  let m := second_of_three_dead in
  all_pids_alive [101; 205; 309] m =
    (Return false,
     mkMachine (self m) (world m) [CheckPidAlive 101; CheckPidAlive 205]).
Proof.
  cbv zeta.
  exact (liveness_check_stops_at_first_dead [101] 205 [309]
           second_of_three_dead
           (snd (all_pids_alive [101] second_of_three_dead))
           (world second_of_three_dead) eq_refl eq_refl).
Defined.
